(** * ms-rest-nodeauth: token credentials

    A shallow embedding of the two credential classes of the library,
    [AzureCliCredentials] (lib/credentials/azureCliCredentials.ts) and
    [MSITokenCredentials] (dist/lib/credentials/msiTokenCredentials.js),
    together with the properties of their [getToken] / [signRequest]
    methods.

    Conventions of the embedding:
    - a JavaScript string is a [string] holding its UTF-8 bytes;
    - a JavaScript number is an integer [Z], NaN, or any other number
      given by the text JavaScript prints for it; epoch milliseconds are
      integers, and the time value of a [Date] is an [option Z], [None]
      being NaN;
    - an [async] method is a state transformer that returns either the
      value the promise resolves with or the error it rejects with;
      a state change made before a [throw] persists;
    - the collaborators outside the repository ([execAz], the HTTP
      client, [Date.parse], the header-name constant) are parameters. *)

From Stdlib Require Import ZArith Lia Ascii String.
From stdpp Require Import base option list strings gmap pretty.

Local Set Warnings "-register-all".
Local Open Scope Z_scope.
Local Open Scope string_scope.

(** ** JavaScript values *)

(** A number: an integer, NaN, or any other number (a fraction, an
    infinity), which is told from the rest by the text JavaScript prints
    for it and by nothing else. *)
Inductive JsNumber :=
| Int (z : Z)
| NaN
| Real (text : string).

Coercion Int : Z >-> JsNumber.

(** Objects are the ones of data: they hold values, never functions. *)
Inductive JsValue : Type :=
| VUndefined
| VNull
| VBool (b : bool)
| VNum (n : JsNumber)
| VStr (s : string)
| VBoxedBool (b : bool)          (* new Boolean(b) *)
| VBoxedNum (n : JsNumber)       (* new Number(n)  *)
| VBoxedStr (s : string)         (* new String(s)  *)
| VArr (items : list JsValue)
| VObj (fields : gmap string JsValue).

(** The answers of [typeof] on the values above. *)
Inductive JsType := TUndefined | TObject | TBoolean | TNumber | TString.

Definition typeof (v : JsValue) : JsType :=
  match v with
  | VUndefined => TUndefined
  | VBool _ => TBoolean
  | VNum _ => TNumber
  | VStr _ => TString
  | VNull | VBoxedBool _ | VBoxedNum _ | VBoxedStr _ | VArr _ | VObj _ => TObject
  end.

#[global] Instance JsType_eq_dec : EqDecision JsType.
Proof. solve_decision. Defined.

(** [ToBoolean]: what [!v] and [v ? a : b] look at. *)
Definition truthy (v : JsValue) : bool :=
  match v with
  | VUndefined | VNull => false
  | VBool b => b
  | VNum (Int z) => negb (Z.eqb z 0)
  | VNum NaN => false
  | VStr s => negb (String.eqb s "")
  | _ => true
  end.

Definition join_with (sep : string) (parts : list string) : string :=
  match parts with
  | [] => ""
  | p :: ps => fold_left (fun acc q => acc ++ sep ++ q) ps p
  end.

(** [v.valueOf()]: a primitive is its own value, a wrapper object gives the
    primitive it boxes, any other object gives itself.  [None] is the
    [TypeError] of a call that cannot be made: on [undefined] and [null],
    and on an object whose own [valueOf] property hides the inherited
    method (the property holds data, and data cannot be called). *)
Definition valueOf (v : JsValue) : option JsValue :=
  match v with
  | VUndefined | VNull => None
  | VBoxedBool b => Some (VBool b)
  | VBoxedNum n => Some (VNum n)
  | VBoxedStr s => Some (VStr s)
  | VObj fields =>
      match fields !! "valueOf" with
      | Some _ => None
      | None => Some v
      end
  | _ => Some v
  end.

(** Whether [v] can be converted to a string.  An object whose own
    [toString] property hides the inherited method cannot: the conversion
    throws a [TypeError]; so does that of an array which holds one. *)
Fixpoint prints (v : JsValue) : bool :=
  match v with
  | VObj fields => bool_decide (fields !! "toString" = None)
  | VArr items => forallb prints items
  | _ => true
  end.

(** [v[p]]: reading a property.  [None] is the [TypeError] of reading from
    [undefined] or [null]; a property that is not there reads as
    [undefined]. *)
Definition get_property (v : JsValue) (p : string) : option JsValue :=
  match v with
  | VUndefined | VNull => None
  | VObj fields => Some (default VUndefined (fields !! p))
  | _ => Some VUndefined
  end.

(** ** Errors and the host engine *)

Record JsError := {
  name : string;
  message : string;
  stack : string;
  stderr : option string            (* set by a failed child process only *)
}.

(** What the JavaScript engine decides and the library does not. *)
Class Engine := {
  captureStack : string -> string -> string;   (* error name, message *)
  nullAccessMessage : JsValue -> string -> string;
  (* the text for calling, on a value, a property that is no function *)
  notCallableMessage : JsValue -> string -> string;
  (* the text for a value that cannot be converted to a primitive one *)
  notPrimitiveMessage : JsValue -> string;
  (* the text printed for an integer of magnitude 2^53 or more: the
     shortest digits that read back as the same number, in exponent form
     from 10^21 on *)
  shortestDigits : Z -> string;
  Date_parse : string -> option Z              (* None is NaN *)
}.

(** Printing of a number, as a template literal does it: an integer
    below 2^53 in magnitude by its decimal digits, a larger one by the
    digits the engine picks for it. *)
Definition Number_toString `{Engine} (n : JsNumber) : string :=
  match n with
  | Int z =>
      if bool_decide (Z.abs z < 2 ^ 53) then pretty z else shortestDigits z
  | NaN => "NaN"
  | Real text => text
  end.

(** [ToString]: the conversion a template literal applies to [${v}], for
    the [v] that [prints]. *)
Fixpoint ToString `{Engine} (v : JsValue) : string :=
  match v with
  | VUndefined => "undefined"
  | VNull => "null"
  | VBool b | VBoxedBool b => if b then "true" else "false"
  | VNum n | VBoxedNum n => Number_toString n
  | VStr s | VBoxedStr s => s
  | VArr items =>
      join_with ","
        (map (fun x => match x with
                       | VUndefined | VNull => ""
                       | _ => ToString x
                       end) items)
  | VObj _ => "[object Object]"
  end.

Section Errors.
Context `{Engine}.

Definition new_Error (msg : string) : JsError :=
  {| name := "Error"; message := msg;
     stack := captureStack "Error" msg; stderr := None |}.

Definition new_TypeError (msg : string) : JsError :=
  {| name := "TypeError"; message := msg;
     stack := captureStack "TypeError" msg; stderr := None |}.
End Errors.

(** ** Asynchronous computations over a mutable state *)

Definition Async (S A : Type) : Type := S -> (JsError + A) * S.

Definition resolve {S A} (a : A) : Async S A := fun s => (inr a, s).
Definition throw {S A} (e : JsError) : Async S A := fun s => (inl e, s).

Definition await {S A B} (m : Async S A) (k : A -> Async S B) : Async S B :=
  fun s => match m s with
           | (inr a, s') => k a s'
           | (inl e, s') => (inl e, s')
           end.

Definition try_catch {S A} (body : Async S A) (handler : JsError -> Async S A)
  : Async S A :=
  fun s => match body s with
           | (inl e, s') => handler e s'
           | settled => settled
           end.

Definition gets {S A} (f : S -> A) : Async S A := fun s => (inr (f s), s).
Definition modify {S} (f : S -> S) : Async S unit := fun s => (inr tt, f s).

#[global] Instance Async_ret {S} : MRet (Async S) := @resolve S.
#[global] Instance Async_bind {S} : MBind (Async S) :=
  fun A B k m => await m k.

(** Unfolds the plumbing of a computation so that [simpl] can run it. *)
Ltac run_async :=
  unfold mbind, mret, Async_bind, Async_ret, await, try_catch, resolve,
    throw, gets, modify in *; simpl in *.

(** ** The part of ms-rest-js the credentials touch *)

Module MsRest.
(** An outgoing request; only its header map is written here. *)
Record WebResource := {
  url : string;
  method : string;
  body : string;
  headers : gmap string string
}.

Definition set_header (k v : string) (r : WebResource) : WebResource :=
  {| url := url r; method := method r; body := body r;
     headers := <[k := v]> (headers r) |}.

(** The outcome of [ServiceClient.sendRequest]. *)
Record HttpOperationResponse := {
  bodyAsText : JsValue;            (* string | null *)
  bodyAsJson : JsValue
}.
End MsRest.

(** Requests are objects shared with the caller: they live in a store and
    are passed by reference. *)
Definition ref := nat.

(** The double-quote character, for the command lines handed to [az]. *)
Definition dquote : string := String (Ascii.ascii_of_nat 34) EmptyString.

(** ** Dates *)

(** A [Date] object is its time value: milliseconds since the epoch, or
    NaN for an invalid date. *)
Inductive JsDate := MkDate (timeValue : option Z).

Definition getTime (d : JsDate) : option Z :=
  match d with MkDate t => t end.

(** [new Date(x)] for the [x] the code passes: a string, or [undefined]
    when the property was missing. *)
Definition new_Date `{Engine} (x : option string) : JsDate :=
  match x with
  | Some s => MkDate (Date_parse s)
  | None => MkDate None
  end.

(** [Math.floor(t / 1000)] on a time value.  Time values are integers of
    magnitude at most 8.64e15, for which the floating-point quotient
    floors to the integer quotient. *)
Definition floor_seconds (t : option Z) : option Z :=
  (fun ms => ms / 1000) <$> t.

(** [a - b < c] on numbers, false as soon as [a] is NaN. *)
Definition sub_lt (a : option Z) (b c : Z) : bool :=
  match a with
  | Some x => bool_decide (x - b < c)
  | None => false
  end.

(** ** A concrete host, for running the model on examples *)

(** Error stacks reduced to their first line, the V8 wording of a failed
    property read, a printing of large integers that knows 2^64 and 10^21
    and a [Date.parse]
    that knows one timestamp. *)
Definition test_engine : Engine :=
  {| captureStack n m := n ++ ": " ++ m;
     nullAccessMessage v p :=
       "Cannot read property '" ++ p ++ "' of " ++
       match v with VNull => "null" | _ => "undefined" end;
     notCallableMessage v p := "value." ++ p ++ " is not a function";
     notPrimitiveMessage v := "Cannot convert object to primitive value";
     shortestDigits z :=
       if Z.eqb z (2 ^ 64) then "18446744073709552000"
       else if Z.eqb z (10 ^ 21) then "1e+21"
       else "(a large integer)";
     Date_parse s :=
       if String.eqb s "2019-05-01T10:00:00.000Z" then Some 1556704800000
       else None |}.

(** A request on its way to the management API, not signed yet. *)
Definition plain_request : MsRest.WebResource :=
  {| MsRest.url := "https://management.azure.com/subscriptions";
     MsRest.method := "GET";
     MsRest.body := "";
     MsRest.headers := {[ "accept-language" := "en-us" ]} |}.

(** ** encodeURIComponent *)

(** The characters [encodeURIComponent] leaves alone: ASCII letters,
    digits and [- _ . ! ~ * ' ( )]. *)
Definition uri_unreserved (c : ascii) : bool :=
  let n := nat_of_ascii c in
  ((65 <=? n) && (n <=? 90) || (97 <=? n) && (n <=? 122) ||
   (48 <=? n) && (n <=? 57))%nat ||
  bool_decide (c ∈ list_ascii_of_string "-_.!~*'()").

Definition hex_digit (n : nat) : ascii :=
  nth n (list_ascii_of_string "0123456789ABCDEF") "0"%char.

(** Every other byte of the UTF-8 form becomes [%XX], upper-case hex.
    (A string is its UTF-8 bytes, so a lone surrogate, on which the real
    function throws, cannot be written down.) *)
Fixpoint encodeURIComponent (s : string) : string :=
  match s with
  | EmptyString => EmptyString
  | String c rest =>
      if uri_unreserved c then String c (encodeURIComponent rest)
      else
        let n := nat_of_ascii c in
        String "%" (String (hex_digit (n / 16)%nat)
                      (String (hex_digit (n mod 16)%nat)
                         (encodeURIComponent rest)))
  end.

(** The value of a digit [encodeURIComponent] writes. *)
Definition hex_value (c : ascii) : nat :=
  default 0%nat
    (fst <$> list_find (fun d => d = c)
               (list_ascii_of_string "0123456789ABCDEF")).

(** Reads an escaped string back: [%XX] is the byte XX, any other
    character is itself.  It is here to show that the escaping loses
    nothing, and is no part of the library. *)
Fixpoint unescape (s : string) : string :=
  match s with
  | EmptyString => EmptyString
  | String c rest =>
      match c, rest with
      | "%"%char, String h (String l rest') =>
          String (ascii_of_nat (16 * hex_value h + hex_value l))
                 (unescape rest')
      | _, _ => String c (unescape rest)
      end
  end.

(** * AzureCliCredentials *)

Module AzureCli.

(** Modelled from the spec: [LinkedSubscription], declared in
    ../subscriptionManagement/subscriptionUtils; of it the credential
    reads the [id], the account the caller wants tokens for. *)
Record LinkedSubscription := {
  id : string
}.

Record CliAccessToken := {
  accessToken : string;
  expiresOn : option JsDate;       (* None: the property is not there *)
  subscription : string;
  tenant : string;
  tokenType : string
}.

(** The JSON that [az account get-access-token] prints. *)
Record AzTokenJson := {
  json_accessToken : string;
  json_expiresOn : option string;
  json_subscription : string;
  json_tenant : string;
  json_tokenType : string
}.

(** The object [getToken] builds and returns. *)
Record TokenResponse := {
  result_accessToken : string;
  result_tokenType : string
}.

Record AzureCliCredentials := {
  subscriptionInfo : LinkedSubscription;
  tokenInfo : CliAccessToken
}.

Definition tokenRenewalMarginInSeconds : Z := 270.

(** Everything outside the credential object. *)
Record World := {
  Date_now : Z;                            (* milliseconds *)
  az_log : list string;                    (* commands run, oldest first *)
  resources : gmap ref MsRest.WebResource
}.

Record State := {
  this : AzureCliCredentials;
  world : World
}.

Definition set_tokenInfo (t : CliAccessToken) (st : State) : State :=
  {| this := {| subscriptionInfo := subscriptionInfo (this st);
                tokenInfo := t |};
     world := world st |}.

Definition set_resource (r : ref) (w : MsRest.WebResource) (st : State)
  : State :=
  {| this := this st;
     world := {| Date_now := Date_now (world st);
                 az_log := az_log (world st);
                 resources := <[r := w]> (resources (world st)) |} |}.

(** A static method runs on the world and leaves [this] alone. *)
Definition static {A} (m : Async World A) : Async State A :=
  fun st => let (r, w) := m (world st) in
            (r, {| this := this st; world := w |}).

Section Methods.
Context `{Engine}.
(** [execAz] from ../login: runs [az <cmd>]; its outcome may depend on
    what was run before. *)
Variable execAz : list string -> string -> JsError + AzTokenJson.
(** [MSRestConstants.HeaderConstants.AUTHORIZATION]. *)
Variable AUTHORIZATION : string.

Definition run_execAz (cmd : string) : Async World AzTokenJson :=
  fun w => (execAz (az_log w) cmd,
            {| Date_now := Date_now w;
               az_log := az_log w ++ [cmd];
               resources := resources w |}).

(** The command line [getAccessToken] assembles. *)
Definition access_token_command (subscriptionIdOrName : option string)
  : string :=
  match subscriptionIdOrName with
  | Some s =>
      if String.eqb s "" then "account get-access-token"
      else "account get-access-token" ++ " -s " ++ dquote ++ s ++ dquote
  | None => "account get-access-token"
  end.

Definition getAccessToken (subscriptionIdOrName : option string)
  : Async World CliAccessToken :=
  try_catch
    (result ← run_execAz (access_token_command subscriptionIdOrName);
     mret {| accessToken := json_accessToken result;
             expiresOn := Some (new_Date (json_expiresOn result));
             subscription := json_subscription result;
             tenant := json_tenant result;
             tokenType := json_tokenType result |})
    (fun err =>
       throw (new_Error
                ("An error occurred while getting credentials from " ++
                 "Azure CLI: " ++ stack err))).

(** The condition of the [if] in [getToken], operand by operand and
    with the short circuit of [||]. *)
Definition in_renewal_window (now : Z) (c : AzureCliCredentials) : bool :=
  match expiresOn (tokenInfo c) with
  | None => true
  | Some d =>
      if negb (String.eqb (id (subscriptionInfo c))
                          (subscription (tokenInfo c)))
      then true
      else sub_lt (floor_seconds (getTime d)) now
                  tokenRenewalMarginInSeconds
  end.

Definition refresh_error_text (err : JsError) : string :=
  match stderr err with
  | Some s => if String.eqb s "" then message err else s
  | None => message err
  end.

Definition getToken : Async State TokenResponse :=
  now ← gets (fun st => Date_now (world st) / 1000);
  c ← gets this;
  (if in_renewal_window now c then
     try_catch
       (t ← static (getAccessToken (Some (id (subscriptionInfo c))));
        modify (set_tokenInfo t))
       (fun err =>
          throw (new_Error
                   ("An error occurred while refreshing the new access " ++
                    "token:" ++ refresh_error_text err)))
   else mret tt);;
  t ← gets (fun st => tokenInfo (this st));
  mret {| result_accessToken := accessToken t;
          result_tokenType := tokenType t |}.

(** [webResource.headers.set(name, value)]; a reference that points
    at no request stands for a [webResource] without [headers]. *)
Definition headers_set (webResource : ref) (k v : string)
  : Async State unit :=
  fun st =>
    match resources (world st) !! webResource with
    | Some w => (inr tt, set_resource webResource
                           (MsRest.set_header k v w) st)
    | None => (inl (new_TypeError
                      (nullAccessMessage VUndefined "headers")), st)
    end.

Definition signRequest (webResource : ref) : Async State ref :=
  tokenResponse ← getToken;
  headers_set webResource AUTHORIZATION
    (result_tokenType tokenResponse ++ " " ++
     result_accessToken tokenResponse);;
  mret webResource.

(** *** The outcomes of a call, named *)

Definition token_response (t : CliAccessToken) : TokenResponse :=
  {| result_accessToken := accessToken t;
     result_tokenType := tokenType t |}.

(** The payload [getAccessToken] makes of the JSON printed by [az]. *)
Definition cli_token (json : AzTokenJson) : CliAccessToken :=
  {| accessToken := json_accessToken json;
     expiresOn := Some (new_Date (json_expiresOn json));
     subscription := json_subscription json;
     tenant := json_tenant json;
     tokenType := json_tokenType json |}.

(** The command a refresh of [st] runs. *)
Definition refresh_command (st : State) : string :=
  access_token_command (Some (id (subscriptionInfo (this st)))).

(** The state after the acquirer ran once. *)
Definition acquired (st : State) : State :=
  {| this := this st;
     world := {| Date_now := Date_now (world st);
                 az_log := az_log (world st) ++ [refresh_command st];
                 resources := resources (world st) |} |}.

Definition refresh_error (err : JsError) : JsError :=
  new_Error
    ("An error occurred while refreshing the new access token:" ++
     "An error occurred while getting credentials from Azure CLI: " ++
     stack err).

Definition stale (st : State) : bool :=
  in_renewal_window (Date_now (world st) / 1000) (this st).

End Methods.

(** *** The static helpers of the class *)

(** [ListAllSubscriptionOptions]; a flag that was not given is [None]. *)
Record ListAllSubscriptionOptions := {
  all : option bool;
  refresh : option bool
}.

(** [if (flag)] on an optional boolean. *)
Definition flag_set (flag : option bool) : bool := default false flag.

(** [v.length], of which the code looks at the truthiness only: the
    number of items of an array, of bytes of a string (zero exactly when
    the string is empty), the property of that name of an object. *)
Definition get_length (v : JsValue) : JsValue :=
  match v with
  | VArr items => VNum (Z.of_nat (length items))
  | VStr s | VBoxedStr s => VNum (Z.of_nat (String.length s))
  | VObj fields => default VUndefined (fields !! "length")
  | _ => VUndefined
  end.

(** The body of the loop of [listAllSubscriptions] on one entry: a truthy
    [cloudName] moves to [environmentName].  [None] is the [TypeError] of
    reading [cloudName] from [null] or [undefined]. *)
Definition rename_cloudName (sub : JsValue) : option JsValue :=
  match get_property sub "cloudName" with
  | None => None
  | Some cloudName =>
      if truthy cloudName then
        match sub with
        | VObj fields =>
            Some (VObj (delete "cloudName"
                          (<["environmentName" := cloudName]> fields)))
        | _ => Some sub
        end
      else Some sub
  end.

(** The same state under another reading of the clock. *)
Definition at_clock (clock : Z) (st : State) : State :=
  {| this := this st;
     world := {| Date_now := clock;
                 az_log := az_log (world st);
                 resources := resources (world st) |} |}.

(** An az command run for a caller that reads the result at type [A]. *)
Definition run_az {A} (oracle : list string -> string -> JsError + A)
    (cmd : string) : Async World A :=
  fun w => (oracle (az_log w) cmd,
            {| Date_now := Date_now w;
               az_log := az_log w ++ [cmd];
               resources := resources w |}).

Section Statics.
Context `{Engine}.
(** [execAz] is untyped; it is given here once per type its callers read
    the result at: the token, the subscription of [account show], and any
    JSON value for the rest. *)
Variable execAz : list string -> string -> JsError + AzTokenJson.
Variable execAzShow : list string -> string -> JsError + LinkedSubscription.
Variable execAzAny : list string -> string -> JsError + JsValue.
(** The engine's text for iterating over what is not iterable. *)
Variable notIterableMessage : JsValue -> string.
(** When both promises of [create] reject: whether the one of
    [account show] does so first. *)
Variable show_settles_first : bool.

Definition constructor (subscriptinInfo : LinkedSubscription)
    (tokenInfo : CliAccessToken) : AzureCliCredentials :=
  {| subscriptionInfo := subscriptinInfo; tokenInfo := tokenInfo |}.

Definition getDefaultSubscription : Async World LinkedSubscription :=
  try_catch
    (result ← run_az execAzShow "account show";
     mret result)
    (fun err =>
       throw (new_Error
                ("An error occurred while getting information about the " ++
                 "current subscription from " ++
                 "Azure CLI: " ++ stack err))).

Definition setDefaultSubscription (subscriptionIdOrName : string)
  : Async World unit :=
  try_catch
    (run_az execAzAny ("account set -s " ++ subscriptionIdOrName);;
     mret tt)
    (fun err =>
       throw (new_Error
                ("An error occurred while setting the current subscription " ++
                 "from " ++
                 "Azure CLI: " ++ stack err))).

(** The [for ... of] loop over the entries of an array. *)
Fixpoint rename_each {S} (items : list JsValue) : Async S (list JsValue) :=
  match items with
  | [] => mret []
  | sub :: rest =>
      match rename_cloudName sub with
      | None => throw (new_TypeError (nullAccessMessage sub "cloudName"))
      | Some sub' =>
          rest' ← rename_each rest;
          mret (sub' :: rest')
      end
  end.

(** The loop on whatever [az] printed: an array is walked entry by entry,
    a string character by character (none of which has a [cloudName]),
    and nothing else can be iterated over. *)
Definition rename_in {S} (subscriptionList : JsValue) : Async S JsValue :=
  match subscriptionList with
  | VArr items =>
      items' ← rename_each items;
      mret (VArr items')
  | VStr _ | VBoxedStr _ => mret subscriptionList
  | _ => throw (new_TypeError (notIterableMessage subscriptionList))
  end.

(** The command line [listAllSubscriptions] assembles. *)
Definition list_command (options : ListAllSubscriptionOptions) : string :=
  let cmd := "account list" in
  let cmd := if flag_set (all options) then cmd ++ " --all" else cmd in
  let cmd := if flag_set (refresh options) then cmd ++ "--refresh" else cmd in
  cmd.

Definition listAllSubscriptions (options : option ListAllSubscriptionOptions)
  : Async World JsValue :=
  let options := default {| all := None; refresh := None |} options in
  try_catch
    (subscriptionList ← run_az execAzAny (list_command options);
     if truthy subscriptionList && truthy (get_length subscriptionList) then
       rename_in subscriptionList
     else mret subscriptionList)
    (fun err =>
       throw (new_Error
                ("An error occurred while getting a list of all the " ++
                 "subscription from " ++
                 "Azure CLI: " ++ stack err))).

(** [Promise.all] over the two calls: both commands are started, the
    subscription one first, and the first rejection wins. *)
Definition create : Async World AzureCliCredentials :=
  fun w =>
    let (shown, w1) := getDefaultSubscription w in
    let (fetched, w2) := getAccessToken execAz None w1 in
    (match shown, fetched with
     | inr subscriptinInfo, inr accessToken =>
         inr (constructor subscriptinInfo accessToken)
     | inl e, inr _ => inl e
     | inr _, inl e => inl e
     | inl e, inl e' => inl (if show_settles_first then e else e')
     end, w2).

End Statics.

(** *** Example data *)

(** [az] without a login: every command fails. *)
Definition az_offline : list string -> string -> JsError + AzTokenJson :=
  fun _ _ =>
    inl {| name := "Error";
           message := "Command failed: az account get-access-token";
           stack := "Error: Command failed: az account get-access-token";
           stderr := Some "Please run 'az login' to setup account." |}.

(** [az] logged in: every command prints the same fresh token. *)
Definition az_online_json : AzTokenJson :=
  {| json_accessToken := "fresh456";
     json_expiresOn := Some "2019-05-01T10:00:00.000Z";
     json_subscription := "sub-B";
     json_tenant := "contoso";
     json_tokenType := "Bearer" |}.

Definition az_online : list string -> string -> JsError + AzTokenJson :=
  fun _ _ => inr az_online_json.

(** A payload for subscription sub-A that expires at 09:00:00 UTC. *)
Definition cached_payload : CliAccessToken :=
  {| accessToken := "abc123";
     expiresOn := Some (MkDate (Some 1556701200000));
     subscription := "sub-A";
     tenant := "contoso";
     tokenType := "Bearer" |}.

Definition example_state (wanted : string) (clock : Z) : State :=
  {| this := {| subscriptionInfo :=
                  {| id := wanted |};
                tokenInfo := cached_payload |};
     world := {| Date_now := clock;
                 az_log := [];
                 resources := {[ 7%nat := plain_request ]} |} |}.

(** 270 seconds and one millisecond before the expiry: floor(expiresOn) -
    now is 270 exactly. *)
Definition st_boundary : State := example_state "sub-A" 1556700930999.
(** One millisecond later the difference is 269. *)
Definition st_in_window : State := example_state "sub-A" 1556700931000.
(** An hour before the expiry, the user having switched to sub-B. *)
Definition st_switched : State := example_state "sub-B" 1556697600000.

(** [az] printing a token whose [expiresOn] is no date. *)
Definition az_undated_json : AzTokenJson :=
  {| json_accessToken := "fresh456";
     json_expiresOn := Some "in an hour";
     json_subscription := "sub-B";
     json_tenant := "contoso";
     json_tokenType := "Bearer" |}.

Definition az_undated : list string -> string -> JsError + AzTokenJson :=
  fun _ _ => inr az_undated_json.

(** A credential handed a payload without [expiresOn]. *)
Definition st_no_expiry : State :=
  {| this := {| subscriptionInfo := {| id := "sub-A" |};
                tokenInfo :=
                  {| accessToken := "abc123";
                     expiresOn := None;
                     subscription := "sub-A";
                     tenant := "contoso";
                     tokenType := "Bearer" |} |};
     world := world st_boundary |}.

(** The boundary state with a second request in the store. *)
Definition st_two_requests : State := set_resource 8%nat plain_request st_boundary.

Definition cli_world : World := world st_switched.

(** [az account show] with sub-B as the default subscription. *)
Definition az_show : list string -> string -> JsError + LinkedSubscription :=
  fun _ _ => inr {| id := "sub-B" |}.

(** [az account list] printing two subscriptions, the first one with the
    [cloudName] of older CLI versions. *)
Definition listed_subscriptions : list JsValue :=
  [ VObj {[ "cloudName" := VStr "AzureCloud"; "id" := VStr "sub-A" ]};
    VObj {[ "environmentName" := VStr "AzureChinaCloud";
            "id" := VStr "sub-B" ]} ].

Definition az_list : list string -> string -> JsError + JsValue :=
  fun _ _ => inr (VArr listed_subscriptions).

(** The same list with a hole in it. *)
Definition az_list_with_null : list string -> string -> JsError + JsValue :=
  fun _ _ => inr (VArr (listed_subscriptions ++ [VNull])).

Definition not_iterable (v : JsValue) : string :=
  "subscriptionList is not iterable".

End AzureCli.

(** * MSITokenCredentials *)

Module MSI.

(** The fields hold what the constructor stored after its checks: a
    number or a [Number] object, a string or a [String] object. *)
Record MSITokenCredentials := {
  port : JsValue;
  resource : JsValue
}.

(** The object literal [prepareRequestOptions] returns. *)
Record RequestOptions := {
  url : string;
  headers : gmap string string;
  body : string;
  method : string
}.

Record World := {
  http_log : list RequestOptions;     (* requests sent, oldest first *)
  resources : gmap ref MsRest.WebResource
}.

Record State := {
  this : MSITokenCredentials;
  world : World
}.

Definition set_resource (r : ref) (w : MsRest.WebResource) (st : State)
  : State :=
  {| this := this st;
     world := {| http_log := http_log (world st);
                 resources := <[r := w]> (resources (world st)) |} |}.

Definition default_port : JsValue := VNum 50342.
Definition default_resource : JsValue := VStr "https://management.azure.com/".

(** A default parameter value replaces [undefined], nothing else. *)
Definition or_default (arg dflt : JsValue) : JsValue :=
  match arg with VUndefined => dflt | _ => arg end.

Section Methods.
Context `{Engine}.
(** [ServiceClient.sendRequest] of ms-rest-js: one call, one exchange
    with the endpoint. *)
Variable sendRequest :
  list RequestOptions -> RequestOptions ->
  JsError + MsRest.HttpOperationResponse.
(** [msRest.Constants.HeaderConstants.AUTHORIZATION]. *)
Variable AUTHORIZATION : string.

(** [v.valueOf()] as a computation. *)
Definition call_valueOf {S} (v : JsValue) : Async S JsValue :=
  match valueOf v with
  | Some x => mret x
  | None =>
      throw (new_TypeError
               (match v with
                | VUndefined | VNull => nullAccessMessage v "valueOf"
                | _ => notCallableMessage v "valueOf"
                end))
  end.

(** [${v}] as a computation. *)
Definition template {S} (v : JsValue) : Async S string :=
  if prints v then mret (ToString v)
  else throw (new_TypeError (notPrimitiveMessage v)).

(** [v.p] as a computation. *)
Definition read {S} (v : JsValue) (p : string) : Async S JsValue :=
  match get_property v p with
  | Some x => mret x
  | None => throw (new_TypeError (nullAccessMessage v p))
  end.

Definition constructor (port_arg resource_arg : JsValue)
  : Async World MSITokenCredentials :=
  let port := or_default port_arg default_port in
  let resource := or_default resource_arg default_resource in
  pv ← call_valueOf port;
  if negb (bool_decide (typeof pv = TNumber)) then
    throw (new_Error "port must be a number.")
  else
    rv ← call_valueOf resource;
    if negb (bool_decide (typeof rv = TString)) then
      throw (new_Error "resource must be a uri of type string.")
    else
      mret {| port := port; resource := resource |}.

Definition prepareRequestOptions (c : MSITokenCredentials)
  : RequestOptions :=
  let resource := encodeURIComponent (ToString (resource c)) in
  {| url := "http://localhost:" ++ ToString (port c) ++ "/oauth2/token";
     headers :=
       <["Content-Type" :=
           "application/x-www-form-urlencoded; charset=UTF-8"]>
         (<["Metadata" := "true"]> ∅);
     body := "resource=" ++ resource;
     method := "POST" |}.

Definition run_sendRequest (reqOptions : RequestOptions)
  : Async State MsRest.HttpOperationResponse :=
  fun st =>
    (sendRequest (http_log (world st)) reqOptions,
     {| this := this st;
        world := {| http_log := http_log (world st) ++ [reqOptions];
                    resources := resources (world st) |} |}).

Definition invalid_token_response (field : string)
  (opRes : MsRest.HttpOperationResponse) : string :=
  "Invalid token response, did not find " ++ field ++
  ". Response body is: " ++ ToString (MsRest.bodyAsText opRes).

Definition getToken : Async State JsValue :=
  reqOptions ← gets (fun st => prepareRequestOptions (this st));
  try_catch
    (opRes ← run_sendRequest reqOptions;
     let result := MsRest.bodyAsJson opRes in
     token_type ← read result "token_type";
     if negb (truthy token_type) then
       throw (new_Error (invalid_token_response "token_type" opRes))
     else
       access_token ← read result "access_token";
       if negb (truthy access_token) then
         throw (new_Error (invalid_token_response "access_token" opRes))
       else mret result)
    (fun err => throw err).

(** [webResource.headers[name] = value]. *)
Definition headers_write (webResource : ref) (k v : string)
  : Async State unit :=
  fun st =>
    match resources (world st) !! webResource with
    | Some w => (inr tt, set_resource webResource
                           (MsRest.set_header k v w) st)
    | None => (inl (new_TypeError
                      (nullAccessMessage VUndefined "headers")), st)
    end.

Definition signRequest (webResource : ref) : Async State ref :=
  tokenResponse ← getToken;
  token_type ← read tokenResponse "token_type";
  scheme ← template token_type;
  access_token ← read tokenResponse "access_token";
  credentials ← template access_token;
  headers_write webResource AUTHORIZATION (scheme ++ " " ++ credentials);;
  mret webResource.

(** *** The outcomes of a call, named *)

(** The state after one request went out. *)
Definition sent (st : State) : State :=
  {| this := this st;
     world := {| http_log :=
                   http_log (world st) ++ [prepareRequestOptions (this st)];
                 resources := resources (world st) |} |}.

(** The outcome of the exchange [getToken] starts from [st]. *)
Definition exchange (st : State) : JsError + MsRest.HttpOperationResponse :=
  sendRequest (http_log (world st)) (prepareRequestOptions (this st)).

End Methods.

(** *** Example data *)

Definition quoted (s : string) : string := dquote ++ s ++ dquote.

(** An endpoint that answers every request with the same response. *)
Definition endpoint (opRes : MsRest.HttpOperationResponse)
  : list RequestOptions -> RequestOptions ->
    JsError + MsRest.HttpOperationResponse :=
  fun _ _ => inr opRes.

Definition token_fields : gmap string JsValue :=
  {[ "access_token" := VStr "abc123";
     "expires_in" := VStr "3599";
     "expires_on" := VStr "1502930996";
     "resource" := VStr "https://management.azure.com/";
     "token_type" := VStr "Bearer" ]}.

Definition token_reply : MsRest.HttpOperationResponse :=
  {| MsRest.bodyAsText := VStr "(the token document)";
     MsRest.bodyAsJson := VObj token_fields |}.

(** Both fields are there, but the token type is the empty string. *)
Definition blank_type_fields : gmap string JsValue :=
  {[ "access_token" := VStr "abc123"; "token_type" := VStr "" ]}.

Definition blank_type_reply : MsRest.HttpOperationResponse :=
  {| MsRest.bodyAsText :=
       VStr ("{" ++ quoted "access_token" ++ ":" ++ quoted "abc123" ++ "," ++
             quoted "token_type" ++ ":" ++ quoted "" ++ "}");
     MsRest.bodyAsJson := VObj blank_type_fields |}.

(** The error document of the service: neither field is there. *)
Definition error_reply : MsRest.HttpOperationResponse :=
  {| MsRest.bodyAsText := VStr "(the error document)";
     MsRest.bodyAsJson :=
       VObj {[ "error" := VStr "bad_resource_200";
               "error_description" := VStr "Invalid Resource" ]} |}.

Definition quiet_world : World :=
  {| http_log := []; resources := {[ 7%nat := plain_request ]} |}.

Definition default_credentials : State :=
  {| this := {| port := VNum 50342;
                resource := VStr "https://management.azure.com/" |};
     world := quiet_world |}.

(** No MSI service is listening. *)
Definition connection_refused : JsError :=
  {| name := "Error";
     message := "connect ECONNREFUSED 127.0.0.1:50342";
     stack := "Error: connect ECONNREFUSED 127.0.0.1:50342";
     stderr := None |}.

Definition no_endpoint
  : list RequestOptions -> RequestOptions ->
    JsError + MsRest.HttpOperationResponse :=
  fun _ _ => inl connection_refused.

(** A body whose token type is an object with a [toString] of its own. *)
Definition odd_type_fields : gmap string JsValue :=
  {[ "access_token" := VStr "abc123";
     "token_type" := VObj {[ "toString" := VNum 1 ]} ]}.

Definition odd_type_reply : MsRest.HttpOperationResponse :=
  {| MsRest.bodyAsText := VStr "(the odd document)";
     MsRest.bodyAsJson := VObj odd_type_fields |}.

(** A response with an empty body. *)
Definition empty_reply : MsRest.HttpOperationResponse :=
  {| MsRest.bodyAsText := VNull; MsRest.bodyAsJson := VNull |}.

End MSI.

(** The header name of ms-rest-js. *)
Definition authorization : string := "authorization".

(** * Properties of AzureCliCredentials *)

Module AzureCliFacts.
Import AzureCli.

Section Facts.
Context `{Engine}.
Variable execAz : list string -> string -> JsError + AzTokenJson.
Variable AUTHORIZATION : string.

Local Abbreviation getToken := (AzureCli.getToken execAz).
Local Abbreviation signRequest := (AzureCli.signRequest execAz AUTHORIZATION).

Lemma getToken_cached st :
  stale st = false ->
  getToken st = (inr (token_response (tokenInfo (this st))), st).
Proof.
  unfold stale, AzureCli.getToken. intros Hw. run_async. by rewrite Hw.
Qed.

Lemma getToken_refreshed st json :
  stale st = true ->
  execAz (az_log (world st)) (refresh_command st) = inr json ->
  getToken st =
    (inr (token_response (cli_token json)),
     set_tokenInfo (cli_token json) (acquired st)).
Proof.
  unfold stale, AzureCli.getToken, refresh_command. intros Hw Haz. run_async.
  rewrite Hw. unfold static, getAccessToken, run_execAz. run_async.
  by rewrite Haz.
Qed.

Lemma getToken_refresh_failed st err :
  stale st = true ->
  execAz (az_log (world st)) (refresh_command st) = inl err ->
  getToken st = (inl (refresh_error err), acquired st).
Proof.
  unfold stale, AzureCli.getToken, refresh_command. intros Hw Haz. run_async.
  rewrite Hw. unfold static, getAccessToken, run_execAz. run_async.
  by rewrite Haz.
Qed.

(** The condition of [getToken], spelled out. *)
Lemma in_renewal_window_spec now c :
  in_renewal_window now c = true <->
  expiresOn (tokenInfo c) = None \/
  id (subscriptionInfo c) <> subscription (tokenInfo c) \/
  exists d ms, expiresOn (tokenInfo c) = Some d /\
               getTime d = Some ms /\
               ms / 1000 - now < tokenRenewalMarginInSeconds.
Proof.
  unfold in_renewal_window.
  destruct (expiresOn (tokenInfo c)) as [d|]; [|naive_solver].
  destruct (String.eqb_spec (id (subscriptionInfo c))
              (subscription (tokenInfo c))) as [Heq|Hne]; simpl.
  - destruct d as [[ms|]]; simpl.
    + rewrite bool_decide_eq_true. split.
      * intros Hlt. right; right. by exists (MkDate (Some ms)), ms.
      * intros [?|[?|(d & ms' & Hd & Ht & Hlt)]]; try done.
        by simplify_eq/=.
    + split; [done|]. intros [?|[?|(d & ms' & Hd & Ht & Hlt)]]; try done.
      by simplify_eq/=.
  - split; [|done]. intros _. by right; left.
Qed.

Lemma getToken_resources st :
  resources (world (getToken st).2) = resources (world st).
Proof.
  destruct (stale st) eqn:Hw.
  - destruct (execAz (az_log (world st)) (refresh_command st)) as [err|json]
      eqn:Haz.
    + by rewrite (getToken_refresh_failed _ _ Hw Haz).
    + by rewrite (getToken_refreshed _ _ Hw Haz).
  - by rewrite (getToken_cached _ Hw).
Qed.

Lemma getToken_keeps_resources st outcome st' :
  getToken st = (outcome, st') ->
  resources (world st') = resources (world st).
Proof. intros Hg. rewrite <- (getToken_resources st). by rewrite Hg. Qed.

Lemma cli_signRequest_rejected webResource st e st' :
  getToken st = (inl e, st') -> signRequest webResource st = (inl e, st').
Proof. unfold AzureCli.signRequest. intros Hg. run_async. by rewrite Hg. Qed.

Lemma cli_signRequest_resolved webResource st tokenResponse st' w :
  getToken st = (inr tokenResponse, st') ->
  resources (world st) !! webResource = Some w ->
  signRequest webResource st =
    (inr webResource,
     set_resource webResource
       (MsRest.set_header AUTHORIZATION
          (result_tokenType tokenResponse ++ " " ++
           result_accessToken tokenResponse) w)
       st').
Proof.
  intros Hg Hw. unfold AzureCli.signRequest. run_async. rewrite Hg.
  unfold headers_set. rewrite (getToken_keeps_resources _ _ _ Hg).
  by rewrite Hw.
Qed.

Lemma app_singleton_neq {A} (l : list A) (x : A) : (l ++ [x])%list <> l.
Proof.
  intros Heq. apply (f_equal length) in Heq.
  rewrite length_app in Heq. simpl in Heq. lia.
Qed.

Lemma getToken_state st :
  (getToken st).2 = st /\ stale st = false \/
  stale st = true /\
  exists t, (getToken st).2 = t /\ world t = world (acquired st).
Proof.
  destruct (stale st) eqn:Hw.
  - right. split; [done|].
    destruct (execAz (az_log (world st)) (refresh_command st)) as [err|json]
      eqn:Haz.
    + rewrite (getToken_refresh_failed _ _ Hw Haz). by eexists.
    + rewrite (getToken_refreshed _ _ Hw Haz). by eexists.
  - left. by rewrite (getToken_cached _ Hw).
Qed.

(** C1. [getToken] runs the acquirer (one more command in the log of
    [az]) exactly when the cached payload has no expiry, or the wanted
    subscription differs from the payload's, or
    floor(expiresOn in seconds) - now < 270; it never runs it twice; and
    at floor(expiresOn) - now = 270 with matching subscriptions the cached
    payload is used and nothing else changes. *)
Theorem getToken_refresh_condition st :
  let c := this st in
  let now := Date_now (world st) / 1000 in
  let after := az_log (world (getToken st).2) in
  tokenRenewalMarginInSeconds = 270 /\
  (after = (az_log (world st) ++ [refresh_command st])%list <->
   (expiresOn (tokenInfo c) = None \/
    id (subscriptionInfo c) <> subscription (tokenInfo c) \/
    exists d ms, expiresOn (tokenInfo c) = Some d /\
                 getTime d = Some ms /\
                 ms / 1000 - now < tokenRenewalMarginInSeconds)) /\
  (after = az_log (world st) \/
   after = (az_log (world st) ++ [refresh_command st])%list) /\
  (forall d ms,
      expiresOn (tokenInfo c) = Some d -> getTime d = Some ms ->
      id (subscriptionInfo c) = subscription (tokenInfo c) ->
      ms / 1000 - now = tokenRenewalMarginInSeconds ->
      getToken st = (inr (token_response (tokenInfo c)), st)).
Proof.
  cbv zeta. split; [done|].
  pose proof (in_renewal_window_spec (Date_now (world st) / 1000) (this st))
    as Hspec. fold (stale st) in Hspec.
  destruct (getToken_state st) as [[Hst Hw]|[Hw (t & Hst & Ht)]];
    rewrite Hst; repeat split.
  - intros Heq. symmetry in Heq. by apply app_singleton_neq in Heq.
  - intros Hc. apply Hspec in Hc. congruence.
  - by left.
  - intros. by apply getToken_cached.
  - intros _. by apply Hspec.
  - intros _. by rewrite Ht.
  - right. by rewrite Ht.
  - intros d ms Hd Hms Hid Hlt. apply getToken_cached.
    apply not_true_is_false. intros Hs. apply Hspec in Hs.
    destruct Hs as [?|[?|(d' & ms' & Hd' & Hms' & Hlt')]]; try congruence.
    assert (ms' = ms) as -> by congruence. lia.
Qed.

(** C2. When a refresh is needed and [az] fails, [getToken] rejects with
    the refresh error (the failure wrapped in the message that starts
    'An error occurred while refreshing the new access token:'), and the
    credential object, its cached payload included, is what it was; a
    later call on that payload which needs no refresh resolves with it
    and runs nothing.  When [az] succeeds the cached payload becomes the
    fetched one, whole. *)
Theorem getToken_failed_refresh_keeps_cache st :
  stale st = true ->
  match execAz (az_log (world st)) (refresh_command st) with
  | inl err =>
      exists e st',
        getToken st = (inl e, st') /\
        name e = "Error" /\
        message e =
          "An error occurred while refreshing the new access token:" ++
          "An error occurred while getting credentials from Azure CLI: " ++
          stack err /\
        this st' = this st /\
        az_log (world st') = (az_log (world st) ++ [refresh_command st])%list /\
        forall later,
          tokenInfo (this later) = tokenInfo (this st') ->
          stale later = false ->
          getToken later = (inr (token_response (tokenInfo (this st))), later)
  | inr json =>
      exists st',
        getToken st = (inr (token_response (cli_token json)), st') /\
        tokenInfo (this st') = cli_token json /\
        subscriptionInfo (this st') = subscriptionInfo (this st)
  end.
Proof.
  intros Hw.
  destruct (execAz (az_log (world st)) (refresh_command st)) as [err|json]
    eqn:Haz.
  - exists (refresh_error err), (acquired st).
    rewrite (getToken_refresh_failed _ _ Hw Haz). repeat split; try done.
    intros later Hsame Hfresh. rewrite (getToken_cached _ Hfresh).
    by rewrite Hsame.
  - eexists. rewrite (getToken_refreshed _ _ Hw Haz). by repeat split.
Qed.

(** C3 (amended). A call that resolves returns the access token and token
    type of the payload cached when it returns.  A payload of the wanted
    subscription with floor(expiresOn) - now >= 270 is returned as it is
    and [az] is not run.  A payload with floor(expiresOn) - now < 270 makes
    [az] run exactly once, and when that succeeds the fetched payload is
    cached and returned. *)
Theorem getToken_returns_cached_payload st :
  let c := this st in
  let now := Date_now (world st) / 1000 in
  (forall r st', getToken st = (inr r, st') ->
                 r = token_response (tokenInfo (this st'))) /\
  (forall d ms,
      expiresOn (tokenInfo c) = Some d -> getTime d = Some ms ->
      ms / 1000 - now >= tokenRenewalMarginInSeconds ->
      id (subscriptionInfo c) = subscription (tokenInfo c) ->
      getToken st = (inr (token_response (tokenInfo c)), st)) /\
  (forall d ms,
      expiresOn (tokenInfo c) = Some d -> getTime d = Some ms ->
      ms / 1000 - now < tokenRenewalMarginInSeconds ->
      az_log (world (getToken st).2) =
        (az_log (world st) ++ [refresh_command st])%list /\
      forall json,
        execAz (az_log (world st)) (refresh_command st) = inr json ->
        getToken st =
          (inr (token_response (cli_token json)),
           set_tokenInfo (cli_token json) (acquired st))).
Proof.
  cbv zeta.
  pose proof (in_renewal_window_spec (Date_now (world st) / 1000) (this st))
    as Hspec. fold (stale st) in Hspec.
  split; [|split].
  - intros r st'. destruct (stale st) eqn:Hw.
    + destruct (execAz (az_log (world st)) (refresh_command st))
        as [err|json] eqn:Haz.
      * by rewrite (getToken_refresh_failed _ _ Hw Haz).
      * rewrite (getToken_refreshed _ _ Hw Haz). by intros [= <- <-].
    + rewrite (getToken_cached _ Hw). by intros [= <- <-].
  - intros d ms Hd Hms Hge Hid. apply getToken_cached.
    apply not_true_is_false. intros Hs. apply Hspec in Hs.
    destruct Hs as [?|[?|(d' & ms' & Hd' & Hms' & Hlt')]]; [congruence..|].
    assert (ms' = ms) as -> by congruence. lia.
  - intros d ms Hd Hms Hlt.
    assert (stale st = true) as Hw
      by (apply Hspec; right; right; by exists d, ms).
    split.
    + destruct (getToken_state st) as [[_ ?]|[_ (t & -> & ->)]];
        [congruence|done].
    + intros json Haz. by apply getToken_refreshed.
Qed.

End Facts.

(** *** Example runs *)

#[local] Existing Instance test_engine.

Lemma getToken_refresh_condition_witness :
  getToken az_online st_boundary =
    (inr (token_response cached_payload), st_boundary) /\
  az_log (world (getToken az_online st_in_window).2) =
    [refresh_command st_in_window].
Proof.
  destruct (getToken_refresh_condition az_online st_boundary)
    as (_ & _ & _ & Hedge).
  destruct (getToken_refresh_condition az_online st_in_window)
    as (_ & Hiff & _).
  split.
  - apply (Hedge (MkDate (Some 1556701200000)) 1556701200000); reflexivity.
  - apply Hiff. right; right.
    exists (MkDate (Some 1556701200000)), 1556701200000.
    repeat split; reflexivity.
Defined.

Lemma getToken_failed_refresh_witness :
  stale st_switched = true /\
  exists e st',
    getToken az_offline st_switched = (inl e, st') /\
    this st' = this st_switched /\
    getToken az_offline (example_state "sub-A" 1556697600000) =
      (inr (token_response cached_payload),
       example_state "sub-A" 1556697600000).
Proof.
  split; [reflexivity|].
  pose proof (getToken_failed_refresh_keeps_cache az_offline st_switched
                eq_refl) as Hfail.
  simpl in Hfail. destruct Hfail as (e & st' & Hrun & _ & _ & Hthis & _ & Hnext).
  exists e, st'. split; [exact Hrun|]. split; [exact Hthis|].
  apply (Hnext (example_state "sub-A" 1556697600000)).
  - rewrite Hthis. reflexivity.
  - reflexivity.
Defined.

(** C3 fails as worded: a payload whose expiry is an hour away is not
    returned when the wanted subscription differs from its own; [az] runs
    and the fetched token comes back. *)
Lemma far_expiry_other_subscription_refreshes :
  (exists d ms,
      expiresOn (tokenInfo (this st_switched)) = Some d /\
      getTime d = Some ms /\
      ms / 1000 - Date_now (world st_switched) / 1000 >=
        tokenRenewalMarginInSeconds) /\
  az_log (world st_switched) = [] /\
  az_log (world (getToken az_online st_switched).2) =
    [refresh_command st_switched] /\
  (getToken az_online st_switched).1 =
    inr {| result_accessToken := "fresh456"; result_tokenType := "Bearer" |} /\
  token_response (tokenInfo (this st_switched)) =
    {| result_accessToken := "abc123"; result_tokenType := "Bearer" |}.
Proof.
  split.
  - exists (MkDate (Some 1556701200000)), 1556701200000.
    repeat split; [reflexivity..|]. by vm_compute.
  - repeat split; reflexivity.
Qed.

Lemma getToken_returns_cached_payload_witness :
  getToken az_online st_boundary =
    (inr (token_response cached_payload), st_boundary) /\
  getToken az_online st_in_window =
    (inr (token_response (cli_token az_online_json)),
     set_tokenInfo (cli_token az_online_json) (acquired st_in_window)).
Proof.
  destruct (getToken_returns_cached_payload az_online st_boundary)
    as (_ & Hfresh & _).
  destruct (getToken_returns_cached_payload az_online st_in_window)
    as (_ & _ & Hstale).
  split.
  - apply (Hfresh (MkDate (Some 1556701200000)) 1556701200000);
      [reflexivity..|by vm_compute|reflexivity].
  - apply (Hstale (MkDate (Some 1556701200000)) 1556701200000);
      reflexivity.
Defined.

End AzureCliFacts.

(** * Properties of MSITokenCredentials *)

Module MSIFacts.
Import MSI.

Section Facts.
Context `{Engine}.
Variable sendRequest :
  list RequestOptions -> RequestOptions ->
  JsError + MsRest.HttpOperationResponse.
Variable AUTHORIZATION : string.

Local Abbreviation exchange := (MSI.exchange sendRequest).
Local Abbreviation getToken := (MSI.getToken sendRequest).
Local Abbreviation signRequest := (MSI.signRequest sendRequest AUTHORIZATION).

Lemma getToken_transport_error st err :
  exchange st = inl err -> getToken st = (inl err, sent st).
Proof.
  unfold MSI.exchange, MSI.getToken. intros Hx. run_async.
  unfold run_sendRequest. by rewrite Hx.
Qed.

Lemma getToken_unreadable_body st opRes :
  exchange st = inr opRes ->
  get_property (MsRest.bodyAsJson opRes) "token_type" = None ->
  getToken st =
    (inl (new_TypeError
            (nullAccessMessage (MsRest.bodyAsJson opRes) "token_type")),
     sent st).
Proof.
  unfold MSI.exchange, MSI.getToken. intros Hx Hp. run_async.
  unfold run_sendRequest. rewrite Hx. unfold read. by rewrite Hp.
Qed.

Lemma get_property_readable v p q x :
  get_property v p = Some x -> is_Some (get_property v q).
Proof. destruct v; simpl; intros ?; by simplify_eq. Qed.

Lemma getToken_checked st opRes token_type access_token :
  exchange st = inr opRes ->
  get_property (MsRest.bodyAsJson opRes) "token_type" = Some token_type ->
  get_property (MsRest.bodyAsJson opRes) "access_token" = Some access_token ->
  getToken st =
    (if negb (truthy token_type) then
       inl (new_Error (invalid_token_response "token_type" opRes))
     else if negb (truthy access_token) then
       inl (new_Error (invalid_token_response "access_token" opRes))
     else inr (MsRest.bodyAsJson opRes),
     sent st).
Proof.
  unfold MSI.exchange, MSI.getToken. intros Hx Ht Ha. run_async.
  unfold run_sendRequest. rewrite Hx. unfold read. rewrite Ht.
  run_async. destruct (truthy token_type); simpl; [|done].
  rewrite Ha. run_async. by destruct (truthy access_token).
Qed.

Lemma getToken_sends st : (getToken st).2 = sent st.
Proof.
  destruct (exchange st) as [err|opRes] eqn:Hx.
  - by rewrite (getToken_transport_error _ _ Hx).
  - destruct (get_property (MsRest.bodyAsJson opRes) "token_type")
      as [t|] eqn:Ht.
    + destruct (get_property_readable _ _ "access_token" _ Ht) as [a Ha].
      by rewrite (getToken_checked _ _ _ _ Hx Ht Ha).
    + by rewrite (getToken_unreadable_body _ _ Hx Ht).
Qed.

Lemma getToken_final st outcome st' :
  getToken st = (outcome, st') -> st' = sent st.
Proof. intros Hg. rewrite <- getToken_sends. by rewrite Hg. Qed.

(** A body that [getToken] hands back has both fields, and both truthy. *)
Lemma getToken_resolved st tokenResponse st' :
  getToken st = (inr tokenResponse, st') ->
  st' = sent st /\
  exists token_type access_token,
    get_property tokenResponse "token_type" = Some token_type /\
    get_property tokenResponse "access_token" = Some access_token /\
    truthy token_type = true /\ truthy access_token = true.
Proof.
  destruct (exchange st) as [err|opRes] eqn:Hx.
  - by rewrite (getToken_transport_error _ _ Hx).
  - destruct (get_property (MsRest.bodyAsJson opRes) "token_type")
      as [t|] eqn:Ht.
    + destruct (get_property_readable _ _ "access_token" _ Ht) as [a Ha].
      rewrite (getToken_checked _ _ _ _ Hx Ht Ha).
      destruct (truthy t) eqn:Htt; simpl; [|done].
      destruct (truthy a) eqn:Hta; simpl; [|done].
      intros [= <- <-]. split; [done|]. by exists t, a.
    + by rewrite (getToken_unreadable_body _ _ Hx Ht).
Qed.

Lemma signRequest_rejected webResource st e st' :
  getToken st = (inl e, st') -> signRequest webResource st = (inl e, st').
Proof. unfold MSI.signRequest. intros Hg. run_async. by rewrite Hg. Qed.

Lemma signRequest_resolved webResource st tokenResponse st' T A w :
  getToken st = (inr tokenResponse, st') ->
  get_property tokenResponse "token_type" = Some T ->
  get_property tokenResponse "access_token" = Some A ->
  prints T = true -> prints A = true ->
  resources (world st) !! webResource = Some w ->
  signRequest webResource st =
    (inr webResource,
     set_resource webResource
       (MsRest.set_header AUTHORIZATION (ToString T ++ " " ++ ToString A) w)
       st').
Proof.
  intros Hg HT HA HpT HpA Hw. unfold MSI.signRequest. run_async. rewrite Hg.
  unfold read, template. rewrite HT. run_async. rewrite HpT. run_async.
  rewrite HA. run_async. rewrite HpA. run_async.
  unfold headers_write.
  destruct (getToken_resolved _ _ _ Hg) as [-> _]. simpl. by rewrite Hw.
Qed.

(** A field that does not print stops the signing before any write. *)
Lemma signRequest_unprintable webResource st tokenResponse st' T A :
  getToken st = (inr tokenResponse, st') ->
  get_property tokenResponse "token_type" = Some T ->
  get_property tokenResponse "access_token" = Some A ->
  prints T && prints A = false ->
  signRequest webResource st =
    (inl (new_TypeError
            (notPrimitiveMessage (if prints T then A else T))),
     st').
Proof.
  intros Hg HT HA Hp. unfold MSI.signRequest. run_async. rewrite Hg.
  unfold read, template. rewrite HT. run_async.
  destruct (prints T); run_async; [|done].
  rewrite HA. run_async. simpl in Hp. by rewrite Hp.
Qed.

(** Whatever the outcome, signing leaves the state where [getToken] left
    it, but for the request it was given. *)
Lemma signRequest_state webResource st :
  this (signRequest webResource st).2 = this st /\
  http_log (world (signRequest webResource st).2) =
    (http_log (world st) ++ [prepareRequestOptions (this st)])%list.
Proof.
  destruct (getToken st) as [[e|tokenResponse] st'] eqn:Hg.
  - rewrite (signRequest_rejected _ _ _ _ Hg).
    by rewrite (getToken_final _ _ _ Hg).
  - destruct (getToken_resolved _ _ _ Hg) as (-> & T & A & HT & HA & _).
    destruct (prints T && prints A) eqn:Hp.
    + apply andb_true_iff in Hp as [HpT HpA].
      destruct (resources (world st) !! webResource) as [w|] eqn:Hw.
      * by rewrite (signRequest_resolved _ _ _ _ _ _ _ Hg HT HA HpT HpA Hw).
      * unfold MSI.signRequest. run_async. rewrite Hg. unfold read, template.
        rewrite HT. run_async. rewrite HpT. run_async.
        rewrite HA. run_async. rewrite HpA. run_async.
        unfold headers_write. simpl. by rewrite Hw.
    + by rewrite (signRequest_unprintable _ _ _ _ _ _ Hg HT HA Hp).
Qed.

Lemma app_inv_head_string (p a b : string) : p ++ a = p ++ b -> a = b.
Proof. induction p as [|c p IH]; simpl; [done|]. intros [= ?]. auto. Qed.

Lemma string_app_assoc (a b c : string) : (a ++ b) ++ c = a ++ (b ++ c).
Proof.
  induction a as [|x a IH]; [done|].
  change (String x ((a ++ b) ++ c) = String x (a ++ (b ++ c))).
  by rewrite IH.
Qed.

(** The digits that [pretty] prepends to [s] do not depend on [s]. *)
Lemma pretty_N_go_app x s : pretty_N_go x s = pretty_N_go x "" ++ s.
Proof.
  revert s. induction (N.lt_wf_0 x) as [x _ IH]; intros s.
  destruct (decide (x = 0)%N) as [->|Hx]; [done|].
  rewrite (pretty_N_go_step x s), (pretty_N_go_step x "") by lia.
  assert (x `div` 10 < x)%N as Hlt by (apply N.div_lt; lia).
  rewrite (IH _ Hlt (String (pretty_N_char (x `mod` 10)) s)).
  rewrite (IH _ Hlt (String (pretty_N_char (x `mod` 10)) "")).
  by rewrite string_app_assoc.
Qed.

Lemma pretty_pos (n : Z) : 0 < n -> pretty n = pretty_N_go (Z.to_N n) "".
Proof. destruct n as [|q|q]; try lia. by intros _. Qed.

Lemma pretty_digit (d : Z) :
  0 <= d < 10 -> pretty d = String (ascii_of_nat (48 + Z.to_nat d)) "".
Proof.
  intros Hd.
  assert (d = 0 \/ d = 1 \/ d = 2 \/ d = 3 \/ d = 4 \/ d = 5 \/ d = 6 \/
          d = 7 \/ d = 8 \/ d = 9) as Hcases by lia.
  repeat destruct Hcases as [->|Hcases]; try reflexivity. by subst.
Qed.

Lemma pretty_tens (n : Z) :
  10 <= n -> pretty n = pretty (n / 10) ++ pretty (n mod 10).
Proof.
  intros Hn.
  assert (0 < n / 10) by (apply Z.div_str_pos; lia).
  assert (0 <= n mod 10 < 10) as Hd by (apply Z.mod_pos_bound; lia).
  rewrite (pretty_pos n), (pretty_pos (n / 10)) by lia.
  rewrite pretty_N_go_step by lia.
  rewrite pretty_N_go_app. f_equal.
  - f_equal. by rewrite Z2N.inj_div by lia.
  - rewrite (pretty_digit _ Hd).
    replace (Z.to_N n `mod` 10)%N with (Z.to_N (n mod 10))
      by (by rewrite Z2N.inj_mod by lia).
    assert (n mod 10 = 0 \/ n mod 10 = 1 \/ n mod 10 = 2 \/ n mod 10 = 3 \/
            n mod 10 = 4 \/ n mod 10 = 5 \/ n mod 10 = 6 \/ n mod 10 = 7 \/
            n mod 10 = 8 \/ n mod 10 = 9) as Hcases by lia.
    repeat destruct Hcases as [->|Hcases]; try reflexivity.
    by rewrite Hcases.
Qed.

(** A non-negative integer below 2^53 is printed digit by digit. *)
Lemma Number_toString_decimal :
  (forall d : Z,
      0 <= d < 10 ->
      Number_toString d = String (ascii_of_nat (48 + Z.to_nat d)) "") /\
  (forall n : Z,
      10 <= n < 2 ^ 53 ->
      Number_toString n = Number_toString (n / 10) ++ Number_toString (n mod 10)).
Proof.
  split.
  - intros d Hd. unfold Number_toString.
    rewrite bool_decide_eq_true_2 by lia. by apply pretty_digit.
  - intros n Hn. unfold Number_toString.
    assert (0 <= n / 10 < 2 ^ 53)
      by (split; [apply Z.div_pos; lia|apply Z.div_lt_upper_bound; lia]).
    assert (0 <= n mod 10 < 10) by (apply Z.mod_pos_bound; lia).
    rewrite !bool_decide_eq_true_2 by lia. apply pretty_tens. lia.
Qed.

(** What the constructor leaves in the fields of an object it built. *)
Lemma constructed_fields port_arg resource_arg w c w' :
  constructor port_arg resource_arg w = (inr c, w') ->
  w' = w /\
  c = {| port := or_default port_arg default_port;
         resource := or_default resource_arg default_resource |} /\
  exists p r,
    (port c = VNum p \/ port c = VBoxedNum p) /\
    (resource c = VStr r \/ resource c = VBoxedStr r).
Proof.
  unfold constructor, call_valueOf.
  destruct port_arg as [| | | | | | | | |pf],
           resource_arg as [| | | | | | | | |rf];
    simpl; try destruct (pf !! "valueOf"); try destruct (rf !! "valueOf");
    run_async; try done;
    intros [= <- <-]; (split; [done|]); (split; [done|]);
    eexists _, _; simpl; split; eauto.
Qed.

(** C6 (amended). For an object the constructor built, [getToken] hands
    exactly one request to the HTTP client, the one
    [prepareRequestOptions] builds: a POST to
    http://localhost:{port}/oauth2/token, the port as JavaScript prints
    the number (a non-negative integer below 2^53 digit by digit, in
    decimal), with the headers Metadata: true and Content-Type:
    application/x-www-form-urlencoded; charset=UTF-8, and the body
    resource={escaped resource}.  Without arguments the port is 50342 and
    the resource https://management.azure.com/, whose body is
    resource=https%3A%2F%2Fmanagement.azure.com%2F. *)
Theorem getToken_posts_to_metadata_endpoint port_arg resource_arg w w' st :
  constructor port_arg resource_arg w = (inr (this st), w') ->
  let req := prepareRequestOptions (this st) in
  http_log (world (getToken st).2) = (http_log (world st) ++ [req])%list /\
  method req = "POST" /\
  headers req !! "Metadata" = Some "true" /\
  headers req !! "Content-Type" =
    Some "application/x-www-form-urlencoded; charset=UTF-8" /\
  (forall k, k <> "Metadata" -> k <> "Content-Type" -> headers req !! k = None) /\
  (exists p r,
      valueOf (port (this st)) = Some (VNum p) /\
      valueOf (resource (this st)) = Some (VStr r) /\
      url req = "http://localhost:" ++ Number_toString p ++ "/oauth2/token" /\
      body req = "resource=" ++ encodeURIComponent r) /\
  ((forall d : Z,
       0 <= d < 10 ->
       Number_toString d = String (ascii_of_nat (48 + Z.to_nat d)) "") /\
   (forall n : Z,
       10 <= n < 2 ^ 53 ->
       Number_toString n =
         Number_toString (n / 10) ++ Number_toString (n mod 10))) /\
  (port_arg = VUndefined -> resource_arg = VUndefined ->
   this st = {| port := VNum 50342;
                resource := VStr "https://management.azure.com/" |} /\
   url req = "http://localhost:50342/oauth2/token" /\
   body req = "resource=https%3A%2F%2Fmanagement.azure.com%2F").
Proof.
  intros Hnew. cbv zeta. rewrite getToken_sends.
  destruct (constructed_fields _ _ _ _ _ Hnew) as (_ & Hc & p & r & Hp & Hr).
  split; [done|]. split; [done|]. split; [done|]. split; [done|].
  split.
  { intros k Hk1 Hk2. simpl. by rewrite !lookup_insert_ne. }
  split.
  { exists p, r. unfold prepareRequestOptions. simpl.
    destruct Hp as [-> | ->], Hr as [-> | ->]; by repeat split. }
  split; [apply Number_toString_decimal|].
  intros -> ->. rewrite Hc. by repeat split.
Qed.

(** C7 (amended). For a response whose JSON body is an object: when
    token_type is missing or falsy the call rejects with the Error whose
    message says token_type was not found; otherwise, when access_token is
    missing or falsy, with the one that says access_token was not found;
    and when both are there and truthy it resolves with the parsed body,
    whole. *)
Theorem getToken_requires_both_fields st opRes fields :
  exchange st = inr opRes ->
  MsRest.bodyAsJson opRes = VObj fields ->
  let not_found k :=
    "Invalid token response, did not find " ++ k ++ ". Response body is: " ++
    ToString (MsRest.bodyAsText opRes) in
  let usable k := exists v, fields !! k = Some v /\ truthy v = true in
  let rejects_with msg :=
    exists e, (getToken st).1 = inl e /\ name e = "Error" /\ message e = msg in
  (~ usable "token_type" -> rejects_with (not_found "token_type")) /\
  (usable "token_type" -> ~ usable "access_token" ->
   rejects_with (not_found "access_token")) /\
  (usable "token_type" -> usable "access_token" ->
   (getToken st).1 = inr (VObj fields)).
Proof.
  intros Hx Hbody not_found usable rejects_with.
  assert (forall k, usable k <-> truthy (default VUndefined (fields !! k)) = true)
    as Husable.
  { intros k. unfold usable. destruct (fields !! k) as [v|]; simpl.
    - split; [by intros (? & [= <-] & ?)|]. intros. by exists v.
    - split; [by intros (? & ? & ?)|done]. }
  unfold rejects_with.
  rewrite (getToken_checked st opRes
             (default VUndefined (fields !! "token_type"))
             (default VUndefined (fields !! "access_token")) Hx)
    by (by rewrite Hbody).
  rewrite Hbody. simpl.
  split; [|split].
  - intros Hno. rewrite Husable in Hno.
    apply not_true_is_false in Hno as ->. by eexists.
  - intros Ht Hno. apply Husable in Ht as ->. rewrite Husable in Hno.
    apply not_true_is_false in Hno as ->. by eexists.
  - intros Ht Ha. by apply Husable in Ht as ->; apply Husable in Ha as ->.
Qed.

(** C10. When neither field can be found in the body, the Error is the
    one about token_type, not the one about access_token. *)
Theorem getToken_reports_token_type_first st opRes :
  exchange st = inr opRes ->
  get_property (MsRest.bodyAsJson opRes) "token_type" = Some VUndefined ->
  get_property (MsRest.bodyAsJson opRes) "access_token" = Some VUndefined ->
  exists e,
    (getToken st).1 = inl e /\
    message e =
      "Invalid token response, did not find token_type" ++
      ". Response body is: " ++ ToString (MsRest.bodyAsText opRes) /\
    message e <>
      "Invalid token response, did not find access_token" ++
      ". Response body is: " ++ ToString (MsRest.bodyAsText opRes).
Proof.
  intros Hx Ht Ha. rewrite (getToken_checked _ _ _ _ Hx Ht Ha). simpl.
  eexists. split; [done|]. split; [done|].
  simpl. intros Heq.
  apply (app_inv_head_string "Invalid token response, did not find ") in Heq.
  discriminate Heq.
Qed.

(** C8 (amended). An argument that is [undefined] selects the default and
    is never an error.  Any other port whose value is not a number, and
    any other resource whose value is not a string, makes the constructor
    throw, with nothing sent: when its [valueOf()] can be called, the
    Error 'port must be a number.' or 'resource must be a uri of type
    string.' (port first); when it cannot ([null], or an object with a
    [valueOf] property of its own), the engine's TypeError.  With a
    numeric port and a string resource the object is built. *)
Theorem constructor_validates_arguments port_arg resource_arg w :
  let bad_port :=
    port_arg <> VUndefined /\ typeof <$> valueOf port_arg <> Some TNumber in
  let bad_resource :=
    resource_arg <> VUndefined /\
    typeof <$> valueOf resource_arg <> Some TString in
  let throws_TypeError :=
    exists e, constructor port_arg resource_arg w = (inl e, w) /\
              name e = "TypeError" in
  (bad_port \/ bad_resource ->
   exists e, constructor port_arg resource_arg w = (inl e, w)) /\
  (bad_port -> is_Some (valueOf port_arg) ->
   constructor port_arg resource_arg w =
     (inl (new_Error "port must be a number."), w)) /\
  (bad_port -> valueOf port_arg = None -> throws_TypeError) /\
  (~ bad_port -> bad_resource -> is_Some (valueOf resource_arg) ->
   constructor port_arg resource_arg w =
     (inl (new_Error "resource must be a uri of type string."), w)) /\
  (~ bad_port -> bad_resource -> valueOf resource_arg = None ->
   throws_TypeError) /\
  (~ bad_port -> ~ bad_resource ->
   constructor port_arg resource_arg w =
     (inr {| port := or_default port_arg default_port;
             resource := or_default resource_arg default_resource |}, w)).
Proof.
  cbv zeta. unfold constructor, call_valueOf.
  destruct port_arg as [| | | | | | | | |pf],
           resource_arg as [| | | | | | | | |rf];
    simpl; try destruct (pf !! "valueOf"); try destruct (rf !! "valueOf");
    run_async;
    repeat split; intros; try done; try (by eexists).
  all: try (exfalso; intuition congruence).
  all: try match goal with Hn : is_Some None |- _ => by destruct Hn end.
Qed.

(** C9. Nothing is cached: every [getToken], and so every [signRequest],
    sends the request again, whatever came before, and leaves the port
    and the resource of the object as they were. *)
Theorem getToken_always_asks_the_endpoint st webResource :
  let req := prepareRequestOptions (this st) in
  let once := (getToken st).2 in
  let twice := (getToken once).2 in
  let signed := (signRequest webResource st).2 in
  (this once = this st /\
   http_log (world once) = (http_log (world st) ++ [req])%list) /\
  (this twice = this st /\
   http_log (world twice) = (http_log (world st) ++ [req; req])%list) /\
  (this signed = this st /\
   http_log (world signed) = (http_log (world st) ++ [req])%list).
Proof.
  cbv zeta. rewrite !getToken_sends. simpl.
  split; [done|]. split; [by rewrite <- app_assoc|].
  apply signRequest_state.
Qed.

End Facts.

(** *** Example runs *)

#[local] Existing Instance test_engine.

(** C6 fails as worded: the Content-Type the request carries is not the
    bare media type; it has a charset parameter. *)
Lemma content_type_carries_a_charset :
  headers (prepareRequestOptions (this default_credentials)) !! "Content-Type" =
    Some "application/x-www-form-urlencoded; charset=UTF-8" /\
  "application/x-www-form-urlencoded; charset=UTF-8" <>
    "application/x-www-form-urlencoded".
Proof. split; [reflexivity|discriminate]. Qed.

(** The custom port and the blank resource of the library's tests. *)
Lemma getToken_posts_to_metadata_endpoint_witness :
  url (prepareRequestOptions
         {| port := VNum 50341; resource := VStr "  " |}) =
    "http://localhost:50341/oauth2/token" /\
  body (prepareRequestOptions
          {| port := VNum 50341; resource := VStr "  " |}) =
    "resource=%20%20" /\
  Number_toString 50341 = "50341".
Proof.
  destruct (getToken_posts_to_metadata_endpoint
              (endpoint token_reply) (VNum 50341) (VStr "  ") quiet_world
              quiet_world
              {| this := {| port := VNum 50341; resource := VStr "  " |};
                 world := quiet_world |} eq_refl)
    as (_ & _ & _ & _ & _ & (p & r & Hp & Hr & Hurl & Hbody) & [Hdigit Htens] & _).
  injection Hp as <-. injection Hr as <-.
  split; [exact Hurl|]. split; [exact Hbody|].
  rewrite (Htens 50341) by lia. reflexivity.
Defined.

Lemma getToken_requires_both_fields_witness :
  (getToken (endpoint token_reply) default_credentials).1 =
    inr (VObj token_fields).
Proof.
  apply (getToken_requires_both_fields (endpoint token_reply)
           default_credentials token_reply token_fields eq_refl eq_refl).
  - by exists (VStr "Bearer").
  - by exists (VStr "abc123").
Defined.

(** C7 fails as worded: with both fields in the body and an empty
    token_type, the body is not returned; the call rejects. *)
Lemma blank_token_type_is_rejected :
  blank_type_fields !! "token_type" = Some (VStr "") /\
  blank_type_fields !! "access_token" = Some (VStr "abc123") /\
  exists e,
    (getToken (endpoint blank_type_reply) default_credentials).1 = inl e /\
    message e =
      "Invalid token response, did not find token_type. Response body is: " ++
      ToString (MsRest.bodyAsText blank_type_reply).
Proof. repeat split. eexists. split; reflexivity. Qed.

Lemma getToken_reports_token_type_first_witness :
  exists e,
    (getToken (endpoint error_reply) default_credentials).1 = inl e /\
    message e =
      "Invalid token response, did not find token_type. " ++
      "Response body is: (the error document)".
Proof.
  destruct (getToken_reports_token_type_first (endpoint error_reply)
              default_credentials error_reply eq_refl eq_refl eq_refl)
    as (e & Hrun & Hmsg & _).
  exists e. split; [exact Hrun|exact Hmsg].
Defined.

(** C8 fails as worded: [undefined] is no number, and yet passing it as
    the port raises nothing; the default port is taken. *)
Lemma undefined_port_is_accepted :
  typeof VUndefined = TUndefined /\
  constructor VUndefined (VStr "badvalue") quiet_world =
    (inr {| port := VNum 50342; resource := VStr "badvalue" |}, quiet_world).
Proof. split; reflexivity. Qed.

Lemma constructor_validates_arguments_witness :
  constructor (VStr "50342") VUndefined quiet_world =
    (inl (new_Error "port must be a number."), quiet_world) /\
  constructor (VNum 50341) (VNum 0) quiet_world =
    (inl (new_Error "resource must be a uri of type string."), quiet_world) /\
  constructor (VBoxedNum 50341) (VStr "  ") quiet_world =
    (inr {| port := VBoxedNum 50341; resource := VStr "  " |}, quiet_world) /\
  (exists e,
      constructor (VObj {[ "valueOf" := VNum 5 ]}) VUndefined quiet_world =
        (inl e, quiet_world) /\
      name e = "TypeError").
Proof.
  split; [|split; [|split]].
  - apply (constructor_validates_arguments (VStr "50342") VUndefined);
      [split|]; done.
  - apply (constructor_validates_arguments (VNum 50341) (VNum 0));
      [intros [_ Hn]; by apply Hn| split |]; done.
  - apply (constructor_validates_arguments (VBoxedNum 50341) (VStr "  "));
      intros [_ Hn]; by apply Hn.
  - destruct (constructor_validates_arguments
                (VObj {[ "valueOf" := VNum 5 ]}) VUndefined quiet_world)
      as (_ & _ & Hthrows & _).
    apply Hthrows; [split|]; done.
Defined.

End MSIFacts.

(** * Signing a request, for both credentials *)

Section Signing.
Context `{Engine}.
Variable execAz : list string -> string -> JsError + AzureCli.AzTokenJson.
Variable sendRequest :
  list MSI.RequestOptions -> MSI.RequestOptions ->
  JsError + MsRest.HttpOperationResponse.
Variable AUTHORIZATION : string.

Lemma set_header_lookup k v w :
  MsRest.headers (MsRest.set_header k v w) !! k = Some v.
Proof. simpl. apply lookup_insert_eq. Qed.

Lemma set_header_lookup_other k k' v w :
  k' <> k ->
  MsRest.headers (MsRest.set_header k v w) !! k' = MsRest.headers w !! k'.
Proof. intros Hne. simpl. by apply lookup_insert_ne. Qed.

(** C4. When [getToken] resolves with token type T and access token A,
    [signRequest] resolves with the request it was given, and in that
    request the Authorization header is T, one space, A, both as they
    came; every other header and field of the request is as before.
    This holds for the CLI credential and for the MSI credential. *)
Theorem signRequest_writes_authorization_header
    (T A : string) (webResource : ref) (w : MsRest.WebResource) :
  let signed := MsRest.set_header AUTHORIZATION (T ++ " " ++ A) w in
  (MsRest.headers signed !! AUTHORIZATION = Some (T ++ " " ++ A) /\
   (forall k, k <> AUTHORIZATION ->
              MsRest.headers signed !! k = MsRest.headers w !! k) /\
   MsRest.url signed = MsRest.url w /\
   MsRest.method signed = MsRest.method w /\
   MsRest.body signed = MsRest.body w) /\
  (forall st st',
      AzureCli.getToken execAz st =
        (inr {| AzureCli.result_accessToken := A;
                AzureCli.result_tokenType := T |}, st') ->
      AzureCli.resources (AzureCli.world st) !! webResource = Some w ->
      AzureCli.signRequest execAz AUTHORIZATION webResource st =
        (inr webResource, AzureCli.set_resource webResource signed st') /\
      AzureCli.resources
        (AzureCli.world (AzureCli.set_resource webResource signed st'))
        !! webResource = Some signed) /\
  (forall st st' tokenResponse,
      MSI.getToken sendRequest st = (inr tokenResponse, st') ->
      get_property tokenResponse "token_type" = Some (VStr T) ->
      get_property tokenResponse "access_token" = Some (VStr A) ->
      MSI.resources (MSI.world st) !! webResource = Some w ->
      MSI.signRequest sendRequest AUTHORIZATION webResource st =
        (inr webResource, MSI.set_resource webResource signed st') /\
      MSI.resources (MSI.world (MSI.set_resource webResource signed st'))
        !! webResource = Some signed).
Proof.
  cbv zeta. split; [|split].
  - split; [apply set_header_lookup|].
    split; [intros k Hk; by apply set_header_lookup_other|done].
  - intros st st' Hg Hw. split.
    + apply (AzureCliFacts.cli_signRequest_resolved _ _ _ _ _ _ _ Hg Hw).
    + simpl. apply lookup_insert_eq.
  - intros st st' tokenResponse Hg HT HA Hw. split.
    + apply (MSIFacts.signRequest_resolved _ _ _ _ _ _ _ _ _ Hg HT HA
               eq_refl eq_refl Hw).
    + simpl. apply lookup_insert_eq.
Qed.

(** C5. When [getToken] rejects, [signRequest] rejects with that very
    error, leaves the state where [getToken] left it and writes to no
    request.  For the CLI credential the error of a failed refresh is the
    refresh error itself. *)
Theorem signRequest_propagates_getToken_error (webResource : ref) :
  (forall st e st',
      AzureCli.getToken execAz st = (inl e, st') ->
      AzureCli.signRequest execAz AUTHORIZATION webResource st = (inl e, st') /\
      AzureCli.resources (AzureCli.world st') =
        AzureCli.resources (AzureCli.world st)) /\
  (forall st err,
      AzureCli.stale st = true ->
      execAz (AzureCli.az_log (AzureCli.world st))
             (AzureCli.refresh_command st) = inl err ->
      AzureCli.signRequest execAz AUTHORIZATION webResource st =
        (inl (AzureCli.refresh_error err), AzureCli.acquired st)) /\
  (forall st e st',
      MSI.getToken sendRequest st = (inl e, st') ->
      MSI.signRequest sendRequest AUTHORIZATION webResource st = (inl e, st') /\
      MSI.resources (MSI.world st') = MSI.resources (MSI.world st)).
Proof.
  split; [|split].
  - intros st e st' Hg. split.
    + by apply AzureCliFacts.cli_signRequest_rejected.
    + by apply (AzureCliFacts.getToken_keeps_resources _ _ _ _ Hg).
  - intros st err Hw Haz. apply AzureCliFacts.cli_signRequest_rejected.
    by apply AzureCliFacts.getToken_refresh_failed.
  - intros st e st' Hg. split.
    + by apply MSIFacts.signRequest_rejected.
    + by rewrite (MSIFacts.getToken_final _ _ _ _ Hg).
Qed.

End Signing.

(** *** Example runs *)

Lemma signRequest_writes_authorization_header_witness :
  (exists st',
      AzureCli.signRequest (H := test_engine) AzureCli.az_online authorization
        7%nat AzureCli.st_boundary = (inr 7%nat, st') /\
      exists w, AzureCli.resources (AzureCli.world st') !! 7%nat = Some w /\
                MsRest.headers w !! authorization = Some "Bearer abc123") /\
  (exists st',
      MSI.signRequest (H := test_engine) (MSI.endpoint MSI.token_reply)
        authorization 7%nat MSI.default_credentials = (inr 7%nat, st') /\
      exists w, MSI.resources (MSI.world st') !! 7%nat = Some w /\
                MsRest.headers w !! authorization = Some "Bearer abc123").
Proof.
  destruct (signRequest_writes_authorization_header
              (H := test_engine) AzureCli.az_online
              (MSI.endpoint MSI.token_reply) authorization
              "Bearer" "abc123" 7%nat plain_request)
    as ((Hhdr & _) & Hcli & Hmsi).
  split.
  - destruct (Hcli AzureCli.st_boundary AzureCli.st_boundary eq_refl eq_refl)
      as [Hrun Hstore].
    eexists. split; [exact Hrun|]. eexists. split; [exact Hstore|exact Hhdr].
  - destruct (Hmsi MSI.default_credentials (MSI.sent MSI.default_credentials)
                (VObj MSI.token_fields) eq_refl eq_refl eq_refl eq_refl)
      as [Hrun Hstore].
    eexists. split; [exact Hrun|]. eexists. split; [exact Hstore|exact Hhdr].
Defined.

Lemma signRequest_propagates_getToken_error_witness :
  exists e st',
    AzureCli.getToken (H := test_engine) AzureCli.az_offline
      AzureCli.st_switched = (inl e, st') /\
    AzureCli.signRequest (H := test_engine) AzureCli.az_offline authorization
      7%nat AzureCli.st_switched = (inl e, st') /\
    AzureCli.resources (AzureCli.world st') !! 7%nat = Some plain_request.
Proof.
  destruct (signRequest_propagates_getToken_error
              (H := test_engine) AzureCli.az_offline
              (MSI.endpoint MSI.token_reply) authorization 7%nat)
    as (Hcli & _ & _).
  eexists. eexists. split; [reflexivity|].
  destruct (Hcli AzureCli.st_switched _ _ eq_refl) as [Hrun Hres].
  split; [exact Hrun|]. rewrite Hres. reflexivity.
Defined.

(** * More on the life of the cached token *)

Module AzureCliLifecycle.
Import AzureCli AzureCliFacts.

Section Lifecycle.
Context `{Engine}.
Variable execAz : list string -> string -> JsError + AzTokenJson.
Variable AUTHORIZATION : string.

Local Abbreviation getToken := (AzureCli.getToken execAz).
Local Abbreviation signRequest := (AzureCli.signRequest execAz AUTHORIZATION).

(** The three ways a call can go. *)
Lemma getToken_cases st :
  stale st = false /\
    getToken st = (inr (token_response (tokenInfo (this st))), st) \/
  (exists json,
      stale st = true /\
      execAz (az_log (world st)) (refresh_command st) = inr json /\
      getToken st =
        (inr (token_response (cli_token json)),
         set_tokenInfo (cli_token json) (acquired st))) \/
  (exists err,
      stale st = true /\
      execAz (az_log (world st)) (refresh_command st) = inl err /\
      getToken st = (inl (refresh_error err), acquired st)).
Proof.
  destruct (stale st) eqn:Hw.
  - destruct (execAz (az_log (world st)) (refresh_command st)) as [err|json]
      eqn:Haz.
    + right; right. exists err. by rewrite (getToken_refresh_failed _ _ _ Hw Haz).
    + right; left. exists json. by rewrite (getToken_refreshed _ _ _ Hw Haz).
  - left. by rewrite (getToken_cached _ _ Hw).
Qed.

(** X1. [getToken] writes to the cached payload and to nothing else of
    the credential or its surroundings: the wanted subscription, the clock
    and every request are as before, and the payload is either the old
    one or the one [az] just printed. *)
Theorem getToken_changes_the_payload_only st :
  let st' := (getToken st).2 in
  subscriptionInfo (this st') = subscriptionInfo (this st) /\
  Date_now (world st') = Date_now (world st) /\
  resources (world st') = resources (world st) /\
  (tokenInfo (this st') = tokenInfo (this st) \/
   exists json,
     execAz (az_log (world st)) (refresh_command st) = inr json /\
     tokenInfo (this st') = cli_token json).
Proof.
  cbv zeta.
  destruct (getToken_cases st)
    as [[_ ->]|[(json & _ & Haz & ->)|(err & _ & _ & ->)]]; simpl.
  - repeat split; by left.
  - repeat split. right. by exists json.
  - repeat split; by left.
Qed.

(** X2. The expiry can be missing after a call only if it was missing
    before it and the refresh failed: whatever [az] prints, the payload
    made of it has an [expiresOn]. *)
Theorem expiry_missing_only_after_failed_refresh st :
  expiresOn (tokenInfo (this (getToken st).2)) = None ->
  expiresOn (tokenInfo (this st)) = None /\
  exists err,
    execAz (az_log (world st)) (refresh_command st) = inl err /\
    (getToken st).1 = inl (refresh_error err).
Proof.
  destruct (getToken_cases st)
    as [[Hw ->]|[(json & _ & _ & ->)|(err & Hw & Haz & ->)]]; simpl.
  - intros Hnone. unfold stale, in_renewal_window in Hw.
    by rewrite Hnone in Hw.
  - done.
  - intros Hnone. split; [done|]. by exists err.
Qed.

(** X3. A payload whose [expiresOn] is an invalid date never leaves the
    cache on grounds of time: when [az] prints an [expiresOn] that does
    not parse (or none) for the wanted subscription, every later call, at
    whatever clock, returns that token and runs nothing. *)
Theorem unparsed_expiry_is_kept_forever st json :
  stale st = true ->
  execAz (az_log (world st)) (refresh_command st) = inr json ->
  new_Date (json_expiresOn json) = MkDate None ->
  json_subscription json = id (subscriptionInfo (this st)) ->
  forall clock,
    let later := at_clock clock (getToken st).2 in
    getToken later = (inr (token_response (cli_token json)), later).
Proof.
  intros Hw Haz Hdate Hsub clock. rewrite (getToken_refreshed _ _ _ Hw Haz).
  cbv zeta. simpl. apply getToken_cached.
  unfold stale, in_renewal_window. simpl. rewrite Hdate, Hsub.
  by rewrite String.eqb_refl.
Qed.

(** X4. Time only moves a payload into the renewal window: if a call
    would refresh at one reading of the clock, it would at every later
    one, the credential being the same. *)
Theorem staleness_grows_with_time st clock :
  Date_now (world st) <= clock ->
  stale st = true -> stale (at_clock clock st) = true.
Proof.
  intros Hle Hw. unfold stale in *. simpl.
  apply in_renewal_window_spec. apply in_renewal_window_spec in Hw.
  destruct Hw as [Hn|[Hs|(d & ms & Hd & Ht & Hlt)]]; [by left|by right; left|].
  right; right. exists d, ms. repeat split; [done..|].
  assert (Date_now (world st) / 1000 <= clock / 1000)
    by (apply Z.div_le_mono; lia).
  lia.
Qed.

(** X5. After a refresh that succeeded, a later call (at whatever the
    clock then reads) refreshes again exactly when [az] printed a token of
    another subscription than the wanted one, or one that expires (by its
    parsed [expiresOn]) in less than 270 seconds from then. *)
Theorem next_call_after_refresh st json clock :
  stale st = true ->
  execAz (az_log (world st)) (refresh_command st) = inr json ->
  stale (at_clock clock (getToken st).2) = true <->
  (json_subscription json <> id (subscriptionInfo (this st)) \/
   exists ms,
     getTime (new_Date (json_expiresOn json)) = Some ms /\
     ms / 1000 - clock / 1000 < tokenRenewalMarginInSeconds).
Proof.
  intros Hw Haz. rewrite (getToken_refreshed _ _ _ Hw Haz).
  unfold stale at 1. rewrite in_renewal_window_spec. simpl. split.
  - intros [?|[Hne|(d & ms & [= <-] & Ht & Hlt)]]; [done|by left; auto|].
    right. by exists ms.
  - intros [Hne|(ms & Ht & Hlt)]; [right; left; auto|].
    right; right. by exists (new_Date (json_expiresOn json)), ms.
Qed.

(** X6. A failed refresh is not remembered: the next call, at the same
    or a later clock, runs the same command again. *)
Theorem failed_refresh_is_retried st err clock :
  stale st = true ->
  execAz (az_log (world st)) (refresh_command st) = inl err ->
  Date_now (world st) <= clock ->
  let st1 := at_clock clock (getToken st).2 in
  stale st1 = true /\
  az_log (world (getToken st1).2) =
    (az_log (world st) ++ [refresh_command st; refresh_command st])%list.
Proof.
  intros Hw Haz Hle. rewrite (getToken_refresh_failed _ _ _ Hw Haz).
  cbv zeta. simpl.
  assert (stale (at_clock clock (acquired st)) = true) as Hw1
    by (by apply (staleness_grows_with_time st)).
  split; [done|].
  destruct (getToken_cases (at_clock clock (acquired st)))
    as [[? _]|[(json & _ & _ & ->)|(err' & _ & _ & ->)]];
    [congruence|simpl; by rewrite <- app_assoc..].
Qed.

(** X7. While the cached payload is fresh, signing is idempotent: signing
    the same request a second time resolves the same way and leaves the
    state the first signing made. *)
Theorem signRequest_again_is_a_no_op st webResource w :
  stale st = false ->
  resources (world st) !! webResource = Some w ->
  let once := signRequest webResource st in
  once.1 = inr webResource /\ signRequest webResource once.2 = once.
Proof.
  intros Hw Hres. pose proof (getToken_cached execAz _ Hw) as Hg.
  cbv zeta. rewrite (cli_signRequest_resolved _ _ _ _ _ _ _ Hg Hres).
  simpl. split; [done|].
  set (value := tokenType (tokenInfo (this st)) ++ " " ++
                accessToken (tokenInfo (this st))).
  set (st1 := set_resource webResource
                (MsRest.set_header AUTHORIZATION value w) st).
  assert (stale st1 = false) as Hw1 by done.
  pose proof (getToken_cached execAz _ Hw1) as Hg1.
  assert (resources (world st1) !! webResource =
            Some (MsRest.set_header AUTHORIZATION value w)) as Hres1
    by (simpl; apply lookup_insert_eq).
  rewrite (cli_signRequest_resolved _ _ _ _ _ _ _ Hg1 Hres1).
  f_equal. unfold st1, set_resource, MsRest.set_header. simpl.
  by rewrite !insert_insert_eq.
Qed.

(** X8. Signing touches the one request it is given: every other request
    of the store is as before, however the call ends. *)
Theorem signRequest_leaves_other_requests st webResource other :
  other <> webResource ->
  resources (world (signRequest webResource st).2) !! other =
    resources (world st) !! other.
Proof.
  intros Hne. destruct (getToken st) as [[e|tokenResponse] st'] eqn:Hg.
  - rewrite (cli_signRequest_rejected _ _ _ _ _ _ Hg). simpl.
    by rewrite (getToken_keeps_resources _ _ _ _ Hg).
  - pose proof (getToken_keeps_resources _ _ _ _ Hg) as Hkeep.
    destruct (resources (world st) !! webResource) as [w|] eqn:Hres.
    + rewrite (cli_signRequest_resolved _ _ _ _ _ _ _ Hg Hres). simpl.
      rewrite lookup_insert_ne by done. by rewrite Hkeep.
    + unfold AzureCli.signRequest. run_async. rewrite Hg.
      unfold headers_set. rewrite Hkeep, Hres. simpl. by rewrite Hkeep.
Qed.

End Lifecycle.

(** *** Example runs *)

#[local] Existing Instance test_engine.

Lemma expiry_missing_only_after_failed_refresh_witness :
  expiresOn (tokenInfo (this (getToken az_offline st_no_expiry).2)) = None /\
  exists err, (getToken az_offline st_no_expiry).1 = inl (refresh_error err).
Proof.
  split; [reflexivity|].
  destruct (expiry_missing_only_after_failed_refresh az_offline st_no_expiry
              eq_refl) as (_ & err & _ & Hrun).
  exists err. exact Hrun.
Defined.

Lemma unparsed_expiry_is_kept_forever_witness :
  getToken az_undated
    (at_clock 4102444800000 (getToken az_undated st_switched).2) =
    (inr (token_response (cli_token az_undated_json)),
     at_clock 4102444800000 (getToken az_undated st_switched).2).
Proof.
  exact (unparsed_expiry_is_kept_forever az_undated st_switched
           az_undated_json eq_refl eq_refl eq_refl eq_refl 4102444800000).
Defined.

Lemma staleness_grows_with_time_witness :
  stale st_in_window = true /\
  stale (at_clock 1556700999000 st_in_window) = true.
Proof.
  split; [reflexivity|].
  apply (staleness_grows_with_time st_in_window 1556700999000);
    [simpl; lia|reflexivity].
Defined.

Lemma next_call_after_refresh_witness :
  stale (at_clock 1556704700000 (getToken az_online st_switched).2) = true.
Proof.
  apply (next_call_after_refresh az_online st_switched az_online_json
           1556704700000 eq_refl eq_refl).
  right. exists 1556704800000. split; reflexivity.
Defined.

Lemma failed_refresh_is_retried_witness :
  az_log (world (getToken az_offline
                   (at_clock 1556697600000
                      (getToken az_offline st_switched).2)).2) =
    [refresh_command st_switched; refresh_command st_switched].
Proof.
  assert (Date_now (world st_switched) <= 1556697600000) as Hle
    by (simpl; lia).
  destruct (failed_refresh_is_retried az_offline st_switched _ 1556697600000
              eq_refl eq_refl Hle) as [_ Hlog].
  exact Hlog.
Defined.

Lemma signRequest_again_is_a_no_op_witness :
  signRequest az_online authorization 7%nat
    (signRequest az_online authorization 7%nat st_boundary).2 =
  signRequest az_online authorization 7%nat st_boundary.
Proof.
  destruct (signRequest_again_is_a_no_op az_online authorization st_boundary
              7%nat plain_request eq_refl eq_refl) as [_ Hagain].
  exact Hagain.
Defined.

Lemma signRequest_leaves_other_requests_witness :
  resources (world (signRequest az_online authorization 7%nat
                      st_two_requests).2) !! 8%nat =
    Some plain_request.
Proof.
  etrans.
  - apply (signRequest_leaves_other_requests az_online authorization
             st_two_requests 7%nat 8%nat). lia.
  - reflexivity.
Defined.

End AzureCliLifecycle.

(** * The static helpers of AzureCliCredentials *)

Module AzureCliStatics.
Import AzureCli AzureCliFacts.

Section Statics.
Context `{Engine}.
Variable execAz : list string -> string -> JsError + AzTokenJson.
Variable execAzShow : list string -> string -> JsError + LinkedSubscription.
Variable execAzAny : list string -> string -> JsError + JsValue.
Variable notIterableMessage : JsValue -> string.
Variable show_settles_first : bool.

Local Abbreviation getAccessToken := (AzureCli.getAccessToken execAz).
Local Abbreviation getDefaultSubscription :=
  (AzureCli.getDefaultSubscription execAzShow).
Local Abbreviation setDefaultSubscription :=
  (AzureCli.setDefaultSubscription execAzAny).
Local Abbreviation listAllSubscriptions :=
  (AzureCli.listAllSubscriptions execAzAny notIterableMessage).
Local Abbreviation create :=
  (AzureCli.create execAz execAzShow show_settles_first).
Local Abbreviation getToken := (AzureCli.getToken execAz).

(** What the loop body does to one entry, seen from outside. *)
Lemma rename_cloudName_entry sub sub' :
  rename_cloudName sub = Some sub' ->
  (exists c, get_property sub' "cloudName" = Some c /\ truthy c = false) /\
  match sub with
  | VObj fields =>
      let cloudName := default VUndefined (fields !! "cloudName") in
      if truthy cloudName then
        exists fields',
          sub' = VObj fields' /\
          fields' !! "cloudName" = None /\
          fields' !! "environmentName" = Some cloudName /\
          forall k, k <> "cloudName" -> k <> "environmentName" ->
                    fields' !! k = fields !! k
      else sub' = sub
  | _ => sub' = sub
  end.
Proof.
  unfold rename_cloudName.
  destruct (get_property sub "cloudName") as [c|] eqn:Hc; [|done].
  destruct (truthy c) eqn:Htc.
  - destruct sub; simpl in *; simplify_eq; simpl in *; try done.
    intros [= <-]. rewrite Htc. split.
    + exists VUndefined. simpl. by rewrite lookup_delete_eq.
    + eexists. split; [done|]. split; [apply lookup_delete_eq|]. split.
      * rewrite lookup_delete_ne by done. apply lookup_insert_eq.
      * intros k Hk1 Hk2.
        rewrite lookup_delete_ne by done. by rewrite lookup_insert_ne.
  - intros [= <-]. split; [by exists c|].
    destruct sub; simpl in *; simplify_eq; try done. by rewrite Htc.
Qed.

Lemma rename_each_resolves {S} items (s : S) :
  Forall (fun sub => is_Some (get_property sub "cloudName")) items ->
  exists items',
    rename_each items s = (inr items', s) /\
    Forall2 (fun sub sub' => rename_cloudName sub = Some sub') items items'.
Proof.
  induction 1 as [|sub rest [c Hc] _ (rest' & Hrest & Hall)]; simpl.
  - by exists [].
  - assert (is_Some (rename_cloudName sub)) as [sub' Hsub].
    { unfold rename_cloudName. rewrite Hc.
      destruct (truthy c); [destruct sub|]; by eexists. }
    rewrite Hsub. run_async. rewrite Hrest.
    exists (sub' :: rest'). split; [done|]. by constructor.
Qed.

Lemma rename_each_rejects {S} items (s : S) :
  Exists (fun sub => get_property sub "cloudName" = None) items ->
  exists sub,
    sub ∈ items /\ get_property sub "cloudName" = None /\
    rename_each items s =
      (inl (new_TypeError (nullAccessMessage sub "cloudName")), s).
Proof.
  induction items as [|x rest IH]; intros Hex; [by inversion Hex|].
  simpl. destruct (rename_cloudName x) as [x'|] eqn:Hx.
  - assert (get_property x "cloudName" <> None) as Hsome.
    { intros Hn. unfold rename_cloudName in Hx. by rewrite Hn in Hx. }
    inversion Hex as [? ? Hbad|? ? Hlater]; subst; [done|].
    destruct (IH Hlater) as (sub & Hin & Hnone & Hrun).
    exists sub. split; [by right|]. split; [done|].
    run_async. by rewrite Hrun.
  - exists x. split; [by left|]. split; [|done].
    unfold rename_cloudName in Hx.
    destruct (get_property x "cloudName") as [c|]; [|done].
    destruct (truthy c); [destruct x|]; done.
Qed.

(** X9. When [az account list] prints an array without [null] entries,
    [listAllSubscriptions] resolves with an array of the same length in
    which, entry by entry, a truthy [cloudName] has become the
    [environmentName] and is gone, every other field is untouched, and an
    entry without a truthy [cloudName] is as printed. *)
Theorem listAllSubscriptions_renames_cloudName options w items :
  execAzAny (az_log w)
    (list_command (default {| all := None; refresh := None |} options)) =
    inr (VArr items) ->
  Forall (fun sub => is_Some (get_property sub "cloudName")) items ->
  exists items',
    (listAllSubscriptions options w).1 = inr (VArr items') /\
    Forall2
      (fun sub sub' =>
         (exists c, get_property sub' "cloudName" = Some c /\
                    truthy c = false) /\
         match sub with
         | VObj fields =>
             let cloudName := default VUndefined (fields !! "cloudName") in
             if truthy cloudName then
               exists fields',
                 sub' = VObj fields' /\
                 fields' !! "cloudName" = None /\
                 fields' !! "environmentName" = Some cloudName /\
                 forall k, k <> "cloudName" -> k <> "environmentName" ->
                           fields' !! k = fields !! k
             else sub' = sub
         | _ => sub' = sub
         end)
      items items'.
Proof.
  intros Haz Hall. unfold AzureCli.listAllSubscriptions. run_async.
  unfold run_az. rewrite Haz. simpl.
  destruct items as [|x rest].
  - simpl. exists []. split; [done|constructor].
  - edestruct (rename_each_resolves (S := World) (x :: rest)) as
      (items' & Hrun & Hrel); [exact Hall|].
    unfold rename_in. run_async. rewrite Hrun.
    exists items'. split; [done|].
    eapply Forall2_impl; [exact Hrel|].
    intros sub sub' Hsub. by apply rename_cloudName_entry.
Qed.

Lemma rename_each_state {S} items (s : S) : (rename_each items s).2 = s.
Proof.
  induction items as [|x rest IH]; simpl; [done|].
  destruct (rename_cloudName x); [|done]. run_async.
  destruct (rename_each rest s) as [[e|rest'] s'] eqn:Hrun; by simpl in *.
Qed.

Lemma rename_in_state {S} v (s : S) : (rename_in notIterableMessage v s).2 = s.
Proof.
  destruct v; simpl; try done. run_async.
  pose proof (rename_each_state items s) as Hs.
  destruct (rename_each items s) as [[e|items'] s']; by simpl in *.
Qed.

(** Whatever [az] prints, the call leaves one more command in the log and
    nothing else behind. *)
Lemma listAllSubscriptions_world options w :
  (listAllSubscriptions options w).2 =
    (run_az execAzAny
       (list_command (default {| all := None; refresh := None |} options))
       w).2.
Proof.
  unfold AzureCli.listAllSubscriptions. run_async.
  set (cmd := list_command _). unfold run_az.
  destruct (execAzAny (az_log w) cmd) as [err|subscriptionList];
    simpl; [done|].
  destruct (truthy subscriptionList && truthy (get_length subscriptionList));
    [|done].
  set (w' := {| Date_now := Date_now w; az_log := _; resources := _ |}).
  pose proof (rename_in_state subscriptionList w') as Hs.
  destruct (rename_in notIterableMessage subscriptionList w') as [[e|v] w''];
    by simpl in *.
Qed.

(** X10. One [null] entry in the printed array spoils the whole list:
    the call rejects with the wrapped [TypeError] of reading [cloudName]
    from the first such entry, and none of the other entries is
    returned. *)
Theorem listAllSubscriptions_null_entry options w items :
  execAzAny (az_log w)
    (list_command (default {| all := None; refresh := None |} options)) =
    inr (VArr items) ->
  Exists (fun sub => get_property sub "cloudName" = None) items ->
  exists sub,
    sub ∈ items /\ (sub = VNull \/ sub = VUndefined) /\
    (listAllSubscriptions options w).1 =
      inl (new_Error
             ("An error occurred while getting a list of all the " ++
              "subscription from Azure CLI: " ++
              captureStack "TypeError" (nullAccessMessage sub "cloudName"))).
Proof.
  intros Haz Hex. unfold AzureCli.listAllSubscriptions. run_async.
  unfold run_az. rewrite Haz. simpl.
  destruct items as [|x rest]; [by inversion Hex|].
  destruct (rename_each_rejects (S := World) (x :: rest)
              {| Date_now := Date_now w;
                 az_log := az_log w ++
                   [list_command
                      (default {| all := None; refresh := None |} options)];
                 resources := resources w |} Hex)
    as (sub & Hin & Hnone & Hrun).
  unfold rename_in. run_async. rewrite Hrun.
  exists sub. split; [done|]. split; [|done].
  destruct sub; simpl in Hnone; try done; auto.
Qed.

(** X11. [listAllSubscriptions] runs exactly one command, one of four.
    The refresh flag is appended without a blank, so it never reaches [az]
    as a word of its own; no options at all are the two flags unset. *)
Theorem listAllSubscriptions_command options w :
  let opts := default {| all := None; refresh := None |} options in
  let cmd :=
    match flag_set (all opts), flag_set (refresh opts) with
    | false, false => "account list"
    | true, false => "account list --all"
    | false, true => "account list--refresh"
    | true, true => "account list --all--refresh"
    end in
  az_log (listAllSubscriptions options w).2 = (az_log w ++ [cmd])%list /\
  cmd <> "account list --refresh" /\
  cmd <> "account list --all --refresh".
Proof.
  cbv zeta. split.
  - rewrite listAllSubscriptions_world. unfold list_command. simpl.
    by destruct (flag_set (all _)), (flag_set (refresh _)).
  - by destruct (flag_set (all _)), (flag_set (refresh _)).
Qed.

(** X12. Every static helper reports a failure of [az] the same way: it
    rejects with a plain Error whose message is the helper's own sentence
    followed by the stack of the failure; the failure's [stderr] is not
    carried over. *)
Theorem static_helpers_wrap_az_failure err w :
  let wrapped sentence (e : JsError) :=
    name e = "Error" /\ stderr e = None /\
    message e = sentence ++ "Azure CLI: " ++ stack err in
  (forall subscriptionIdOrName,
      execAz (az_log w) (access_token_command subscriptionIdOrName) = inl err ->
      exists e,
        (getAccessToken subscriptionIdOrName w).1 = inl e /\
        wrapped "An error occurred while getting credentials from " e) /\
  (execAzShow (az_log w) "account show" = inl err ->
   exists e,
     (getDefaultSubscription w).1 = inl e /\
     wrapped ("An error occurred while getting information about the " ++
              "current subscription from ") e) /\
  (forall subscriptionIdOrName,
      execAzAny (az_log w) ("account set -s " ++ subscriptionIdOrName) =
        inl err ->
      exists e,
        (setDefaultSubscription subscriptionIdOrName w).1 = inl e /\
        wrapped "An error occurred while setting the current subscription from "
          e) /\
  (forall options,
      execAzAny (az_log w)
        (list_command (default {| all := None; refresh := None |} options)) =
        inl err ->
      exists e,
        (listAllSubscriptions options w).1 = inl e /\
        wrapped ("An error occurred while getting a list of all the " ++
                 "subscription from ") e).
Proof.
  cbv zeta. repeat split.
  - intros sub Haz. unfold AzureCli.getAccessToken, run_execAz. run_async.
    rewrite Haz. by eexists.
  - intros Haz. unfold AzureCli.getDefaultSubscription, run_az. run_async.
    rewrite Haz. by eexists.
  - intros sub Haz. unfold AzureCli.setDefaultSubscription, run_az. run_async.
    rewrite Haz. by eexists.
  - intros options Haz. unfold AzureCli.listAllSubscriptions, run_az.
    run_async. rewrite Haz. by eexists.
Qed.

Lemma getAccessToken_run subscriptionIdOrName w :
  getAccessToken subscriptionIdOrName w =
    (match execAz (az_log w) (access_token_command subscriptionIdOrName) with
     | inl err =>
         inl (new_Error ("An error occurred while getting credentials from " ++
                         "Azure CLI: " ++ stack err))
     | inr json => inr (cli_token json)
     end,
     (run_az execAz (access_token_command subscriptionIdOrName) w).2).
Proof.
  unfold AzureCli.getAccessToken, run_execAz. run_async.
  by destruct (execAz _ _).
Qed.

Lemma getDefaultSubscription_run w :
  getDefaultSubscription w =
    (match execAzShow (az_log w) "account show" with
     | inl err =>
         inl (new_Error ("An error occurred while getting information " ++
                         "about the current subscription from " ++
                         "Azure CLI: " ++ stack err))
     | inr sub => inr sub
     end,
     (run_az execAzShow "account show" w).2).
Proof.
  unfold AzureCli.getDefaultSubscription, run_az. run_async.
  by destruct (execAzShow _ _).
Qed.

(** X13. [create] starts both commands, [account show] and then
    [account get-access-token] without a subscription, however either
    ends; it resolves exactly when both succeed, with the subscription
    and the token they printed, and that token has an [expiresOn]. *)
Theorem create_runs_both_commands w :
  let outcome := (create w).1 in
  az_log (create w).2 =
    (az_log w ++ ["account show"; "account get-access-token"])%list /\
  (forall credentials,
      outcome = inr credentials <->
      exists sub json,
        execAzShow (az_log w) "account show" = inr sub /\
        execAz (az_log w ++ ["account show"])%list "account get-access-token" =
          inr json /\
        credentials = constructor sub (cli_token json)) /\
  (forall credentials,
      outcome = inr credentials ->
      is_Some (expiresOn (tokenInfo credentials))).
Proof.
  cbv zeta. unfold AzureCli.create.
  rewrite getDefaultSubscription_run, getAccessToken_run. simpl.
  split; [by rewrite <- app_assoc|].
  destruct (execAzShow (az_log w) "account show") as [e1|sub];
    destruct (execAz (az_log w ++ ["account show"])%list
                "account get-access-token") as [e2|json]; simpl.
  - split; [|done]. intros c. split; [done|]. by intros (? & ? & ? & ? & ?).
  - split; [|done]. intros c. split; [done|]. by intros (? & ? & ? & ? & ?).
  - split; [|done]. intros c. split; [done|]. by intros (? & ? & ? & ? & ?).
  - split.
    + intros c. split.
      * intros [= <-]. by exists sub, json.
      * by intros (? & ? & [= <-] & [= <-] & ->).
    + intros c [= <-]. by eexists.
Qed.

(** X14. A credential made by [create] calls [az] on its first
    [getToken] exactly when the token printed is of another subscription
    than the default one, or expires (by its parsed [expiresOn]) in less
    than 270 seconds at the clock of that call; otherwise the token of
    [create] is returned and nothing is run. *)
Theorem getToken_after_create w credentials w' clock :
  create w = (inr credentials, w') ->
  let st := at_clock clock {| this := credentials; world := w' |} in
  (stale st = true <->
   subscription (tokenInfo credentials) <>
     id (subscriptionInfo credentials) \/
   exists d ms,
     expiresOn (tokenInfo credentials) = Some d /\ getTime d = Some ms /\
     ms / 1000 - clock / 1000 < tokenRenewalMarginInSeconds) /\
  (stale st = false ->
   getToken st = (inr (token_response (tokenInfo credentials)), st)).
Proof.
  intros Hcreate. cbv zeta.
  destruct (create_runs_both_commands w) as (_ & _ & Hexp).
  assert (is_Some (expiresOn (tokenInfo credentials))) as [d Hd]
    by (apply Hexp; by rewrite Hcreate).
  split; [|apply getToken_cached].
  unfold stale. rewrite in_renewal_window_spec. simpl. split.
  - intros [Hn|[Hne|Hlt]]; [congruence|left; auto|by right].
  - intros [Hne|Hlt]; [right; left; auto|by right; right].
Qed.

End Statics.

(** *** Example runs *)

#[local] Existing Instance test_engine.

Lemma listAllSubscriptions_renames_cloudName_witness :
  exists items',
    (listAllSubscriptions az_list not_iterable None cli_world).1 =
      inr (VArr items') /\
    length items' = 2%nat.
Proof.
  assert (Forall (fun sub => is_Some (get_property sub "cloudName"))
            listed_subscriptions) as Hall
    by (repeat constructor; by eexists).
  destruct (listAllSubscriptions_renames_cloudName az_list not_iterable None
              cli_world listed_subscriptions eq_refl Hall)
    as (items' & Hrun & Hrel).
  exists items'. split; [exact Hrun|].
  symmetry. exact (Forall2_length _ _ _ Hrel).
Defined.

Lemma listAllSubscriptions_null_entry_witness :
  exists e,
    (listAllSubscriptions az_list_with_null not_iterable None cli_world).1 =
      inl e.
Proof.
  assert (Exists (fun sub => get_property sub "cloudName" = None)
            (listed_subscriptions ++ [VNull])) as Hex
    by (apply Exists_app; right; by constructor).
  destruct (listAllSubscriptions_null_entry az_list_with_null not_iterable
              None cli_world (listed_subscriptions ++ [VNull]) eq_refl Hex)
    as (sub & _ & _ & Hrun).
  eexists. exact Hrun.
Defined.

Lemma getToken_after_create_witness :
  exists st,
    this st = constructor {| id := "sub-B" |} (cli_token az_online_json) /\
    getToken az_online st =
      (inr (token_response (cli_token az_online_json)), st).
Proof.
  destruct (getToken_after_create az_online az_show true cli_world
              (constructor {| id := "sub-B" |} (cli_token az_online_json))
              (create az_online az_show true cli_world).2
              1556697600000 eq_refl) as [_ Hfresh].
  eexists. split; [|apply Hfresh; reflexivity]. reflexivity.
Defined.

End AzureCliStatics.

(** * More on the requests of MSITokenCredentials *)

Module MSIRequests.
Import MSI MSIFacts.

Lemma unescape_byte c t :
  unescape
    (if uri_unreserved c then String c t
     else String "%" (String (hex_digit (nat_of_ascii c / 16))
                        (String (hex_digit (nat_of_ascii c mod 16)) t))) =
  String c (unescape t).
Proof. destruct c as [[] [] [] [] [] [] [] []]; reflexivity. Qed.

Lemma unescape_encodeURIComponent s : unescape (encodeURIComponent s) = s.
Proof.
  induction s as [|c s IH]; [done|].
  cbn [encodeURIComponent]. rewrite unescape_byte. by rewrite IH.
Qed.

Lemma hex_digit_unreserved k : uri_unreserved (hex_digit k) = true.
Proof. do 17 (destruct k as [|k]; [reflexivity|]). reflexivity. Qed.

Lemma encodeURIComponent_alphabet s :
  Forall (fun ch => uri_unreserved ch = true \/ ch = "%"%char)
    (list_ascii_of_string (encodeURIComponent s)).
Proof.
  induction s as [|c s IH]; [constructor|].
  cbn [encodeURIComponent]. destruct (uri_unreserved c) eqn:Hc; simpl.
  - constructor; auto.
  - constructor; [by right|].
    constructor; [left; apply hex_digit_unreserved|].
    constructor; [left; apply hex_digit_unreserved|done].
Qed.

Lemma string_length_append (s t : string) :
  String.length (s ++ t) = (String.length s + String.length t)%nat.
Proof. induction s as [|c s IH]; [done|]. cbn. by rewrite <- IH. Qed.

(** The bytes of [s] that get escaped. *)
Lemma encodeURIComponent_length s :
  String.length (encodeURIComponent s) =
    (String.length s +
     2 * length (filter (fun c => uri_unreserved c = false)
                   (list_ascii_of_string s)))%nat.
Proof.
  induction s as [|c s IH]; [done|].
  cbn [encodeURIComponent list_ascii_of_string].
  rewrite filter_cons. destruct (uri_unreserved c) eqn:Hc; simpl;
    rewrite IH; simpl; lia.
Qed.

Section Requests.
Context `{Engine}.
Variable sendRequest :
  list RequestOptions -> RequestOptions ->
  JsError + MsRest.HttpOperationResponse.
Variable AUTHORIZATION : string.

Local Abbreviation exchange := (MSI.exchange sendRequest).
Local Abbreviation getToken := (MSI.getToken sendRequest).
Local Abbreviation signRequest := (MSI.signRequest sendRequest AUTHORIZATION).

(** X15. The body of the request is one form field: after [resource=]
    come only letters, digits, [- _ . ! ~ * ' ( )] and percent escapes, so
    whatever the resource is, no [&] and no second [=] can appear. *)
Theorem request_body_is_one_field c :
  exists value,
    body (prepareRequestOptions c) = "resource=" ++ value /\
    Forall (fun ch => uri_unreserved ch = true \/ ch = "%"%char)
      (list_ascii_of_string value) /\
    ("&"%char ∉ list_ascii_of_string value) /\
    ("="%char ∉ list_ascii_of_string value).
Proof.
  exists (encodeURIComponent (ToString (resource c))).
  pose proof (encodeURIComponent_alphabet (ToString (resource c))) as Hall.
  split; [done|]. split; [done|].
  rewrite Forall_forall in Hall.
  split; intros Hin; apply Hall in Hin as [?|?]; done.
Qed.

(** X16. The escaping loses nothing: two credentials send the same body
    exactly when their resources print the same. *)
Theorem request_body_determines_resource c1 c2 :
  body (prepareRequestOptions c1) = body (prepareRequestOptions c2) <->
  ToString (resource c1) = ToString (resource c2).
Proof.
  split; [|by intros Heq; simpl; rewrite Heq].
  simpl. intros Heq.
  apply (app_inv_head_string "resource=") in Heq.
  apply (f_equal unescape) in Heq.
  by rewrite !unescape_encodeURIComponent in Heq.
Qed.

(** X17. A resource goes into the body byte by byte: a letter, a digit or
    one of [- _ . ! ~ * ' ( )] as it is, any other byte as three
    characters; so a resource of the former only is sent verbatim. *)
Theorem request_body_length c :
  let r := ToString (resource c) in
  let escaped :=
    filter (fun ch => uri_unreserved ch = false) (list_ascii_of_string r) in
  String.length (body (prepareRequestOptions c)) =
    (9 + String.length r + 2 * length escaped)%nat /\
  (escaped = [] -> body (prepareRequestOptions c) = "resource=" ++ r).
Proof.
  cbv zeta. unfold prepareRequestOptions. cbn [body]. split.
  - rewrite string_length_append, encodeURIComponent_length. simpl. lia.
  - intros Hnone. f_equal.
    induction (ToString (resource c)) as [|ch r IH]; [done|].
    cbn [encodeURIComponent list_ascii_of_string] in *.
    rewrite filter_cons in Hnone.
    destruct (uri_unreserved ch) eqn:Hch; simpl in Hnone; [|done].
    by rewrite IH.
Qed.

(** X18. A failure of the HTTP client comes out of [getToken], and so out
    of [signRequest], as the very error the client gave, after the one
    request was sent; no header is written. *)
Theorem transport_error_passes_through st err webResource :
  exchange st = inl err ->
  getToken st = (inl err, sent st) /\
  signRequest webResource st = (inl err, sent st) /\
  resources (world (sent st)) = resources (world st).
Proof.
  intros Hx. pose proof (getToken_transport_error _ _ _ Hx) as Hg.
  split; [done|]. split; [|done]. by apply signRequest_rejected.
Qed.

(** X19. A response without a JSON body ([bodyAsJson] null or undefined)
    is not answered with the 'Invalid token response' Error: what comes
    out is the engine's [TypeError] of reading [token_type] from it. *)
Theorem missing_body_is_a_TypeError st opRes :
  exchange st = inr opRes ->
  MsRest.bodyAsJson opRes = VNull \/ MsRest.bodyAsJson opRes = VUndefined ->
  exists e,
    getToken st = (inl e, sent st) /\
    name e = "TypeError" /\
    message e = nullAccessMessage (MsRest.bodyAsJson opRes) "token_type".
Proof.
  intros Hx Hbody.
  rewrite (getToken_unreadable_body _ _ _ Hx)
    by (by destruct Hbody as [-> | ->]).
  by eexists.
Qed.


(** X21. Once [getToken] has resolved, the body has a truthy
    [token_type] and a truthy [access_token], and signing a request of the
    store depends on them alone: if both print, [signRequest] resolves
    with the request after writing their texts, a blank between them,
    under the Authorization key; if one does not (an object with a
    [toString] property of its own), it rejects with a [TypeError] and
    writes nothing. *)
Theorem signRequest_after_resolved_getToken
    st tokenResponse st' webResource w :
  getToken st = (inr tokenResponse, st') ->
  resources (world st) !! webResource = Some w ->
  exists token_type access_token,
    get_property tokenResponse "token_type" = Some token_type /\
    get_property tokenResponse "access_token" = Some access_token /\
    truthy token_type = true /\ truthy access_token = true /\
    (prints token_type = true -> prints access_token = true ->
     signRequest webResource st =
       (inr webResource,
        set_resource webResource
          (MsRest.set_header AUTHORIZATION
             (ToString token_type ++ " " ++ ToString access_token) w) st')) /\
    (prints token_type && prints access_token = false ->
     exists e,
       signRequest webResource st = (inl e, st') /\ name e = "TypeError").
Proof.
  intros Hg Hw.
  destruct (getToken_resolved _ _ _ _ Hg) as (_ & T & A & HT & HA & HtT & HtA).
  exists T, A. repeat split; try done.
  - intros HpT HpA.
    by apply (signRequest_resolved _ _ _ _ _ _ _ _ _ Hg HT HA HpT HpA Hw).
  - intros Hp. eexists.
    by rewrite (signRequest_unprintable _ _ _ _ _ _ _ _ Hg HT HA Hp).
Qed.

End Requests.

(** *** Example runs *)

#[local] Existing Instance test_engine.

Lemma transport_error_passes_through_witness :
  signRequest no_endpoint authorization 7%nat default_credentials =
    (inl connection_refused, sent default_credentials).
Proof.
  destruct (transport_error_passes_through no_endpoint authorization
              default_credentials connection_refused 7%nat eq_refl)
    as (_ & Hsign & _).
  exact Hsign.
Defined.

Lemma missing_body_is_a_TypeError_witness :
  exists e,
    getToken (endpoint empty_reply) default_credentials =
      (inl e, sent default_credentials) /\
    message e = "Cannot read property 'token_type' of null".
Proof.
  destruct (missing_body_is_a_TypeError (endpoint empty_reply)
              default_credentials empty_reply eq_refl (or_introl eq_refl))
    as (e & Hrun & _ & Hmsg).
  exists e. split; [exact Hrun|exact Hmsg].
Defined.


(** A port beyond 2^53 is accepted and no longer printed by its decimal
    digits: 2^64, which is 18446744073709551616, goes out rounded, and
    10^21 in exponent form. *)
Lemma huge_port_in_exponent_form :
  constructor (VNum (10 ^ 21)) VUndefined quiet_world =
    (inr {| port := VNum (10 ^ 21); resource := default_resource |},
     quiet_world) /\
  url (prepareRequestOptions
         {| port := VNum (10 ^ 21); resource := default_resource |}) =
    "http://localhost:1e+21/oauth2/token" /\
  url (prepareRequestOptions
         {| port := VNum (2 ^ 64); resource := default_resource |}) =
    "http://localhost:18446744073709552000/oauth2/token".
Proof. repeat split; reflexivity. Qed.

Lemma signRequest_after_resolved_getToken_witness :
  (exists st',
      signRequest (endpoint token_reply) authorization 7%nat
        default_credentials = (inr 7%nat, st')) /\
  (exists e,
      signRequest (endpoint odd_type_reply) authorization 7%nat
        default_credentials = (inl e, sent default_credentials) /\
      name e = "TypeError").
Proof.
  split.
  - destruct (signRequest_after_resolved_getToken (endpoint token_reply)
                authorization default_credentials (VObj token_fields)
                (sent default_credentials) 7%nat plain_request
                eq_refl eq_refl)
      as (T & A & HT & HA & _ & _ & Hrun & _).
    injection HT as <-. injection HA as <-.
    eexists. exact (Hrun eq_refl eq_refl).
  - destruct (signRequest_after_resolved_getToken (endpoint odd_type_reply)
                authorization default_credentials (VObj odd_type_fields)
                (sent default_credentials) 7%nat plain_request
                eq_refl eq_refl)
      as (T & A & HT & HA & _ & _ & _ & Hrun).
    injection HT as <-. injection HA as <-.
    exact (Hrun eq_refl).
Defined.

End MSIRequests.
